(** * logrus-redis-hook: a shallow embedding of [logrus_redis.go]

    The hook forwards logrus entries to a Redis list as Logstash JSON
    envelopes.  The definitions of the second half follow
    [logrus_redis.go] function by function and keep its names.  What the
    Go file takes from other packages (logrus levels and entries,
    [strings.ToLower], [fmt], [time], [encoding/json], channels, the
    Redis connection) is modelled in the modules that come first. *)

From stdpp Require Import base option list strings gmap fin_maps pretty sorting.
From Stdlib Require Import ZArith Ascii String.

Local Open Scope string_scope.
Local Open Scope list_scope.
Set Warnings "-register-all".

(** ** Go values, errors and results *)

Module golang.

(** A Go [error], identified with the text of its [Error()]. *)
Definition error : Type := string.

(** A pair [(value, err)] as Go functions return it: [Ok] stands for
    [err == nil]. *)
Inductive result (A : Type) : Type :=
| Ok (a : A)
| Err (err : error).
Arguments Ok {A} a.
Arguments Err {A} err.

(** A call either returns or panics. *)
Inductive outcome (A : Type) : Type :=
| Return (a : A)
| Panic (msg : string).
Arguments Return {A} a.
Arguments Panic {A} msg.

(** An [interface{}] value, by dynamic type.  [VOther] is a value of
    any further dynamic type, carried as the text the verb [%v] prints
    for it. *)
Inductive value : Type :=
| VString (s : string)
| VInt (n : Z)
| VBool (b : bool)
| VOther (shown : string).

(** [make([]T, n)]: a slice of [n] zero values. *)
Definition make_slice {T : Type} (zero : T) (n : nat) : list T := replicate n zero.

(** [append(s, x)]. *)
Definition append {T : Type} (s : list T) (x : T) : list T := s ++ [x].

(** The bodies of a run of [case] clauses, each ending in
    [fallthrough] (the last one ends the [switch]). *)
Definition run_bodies {T S : Type} (clauses : list (T * (S → S))) (s : S) : S :=
  foldl (λ acc clause, snd clause acc) s clauses.

(** An expression [switch] without [default] whose clauses all fall
    through: the first clause whose label equals the tag is entered and
    control runs on through the clauses after it.  When no label
    matches, nothing runs. *)
Fixpoint switch_fallthrough {T S : Type} `{EqDecision T} (tag : T)
    (clauses : list (T * (S → S))) (s : S) : S :=
  match clauses with
  | [] => s
  | (label, body) :: rest =>
      if decide (tag = label) then run_bodies ((label, body) :: rest) s
      else switch_fallthrough tag rest s
  end.

(** *** Channels

    A channel with one receiving goroutine.  [Parked] says the
    receiver is blocked on the channel; a send then hands the value
    straight to it ([Handed]) without passing through the buffer. *)
Inductive receiver (A : Type) : Type :=
| Away
| Parked
| Handed (a : A).
Arguments Away {A}.
Arguments Parked {A}.
Arguments Handed {A} a.

Record Chan (A : Type) : Type := MkChan {
  chan_cap : nat;
  chan_buf : list A;
  chan_recv : receiver A
}.
Arguments MkChan {A} _ _ _.
Arguments chan_cap {A} _.
Arguments chan_buf {A} _.
Arguments chan_recv {A} _.

(** The runtime's [makechan] on a 64-bit platform: the largest
    allocation [maxAlloc] is [2^48] bytes, the channel header
    [hchanSize] takes 96 of them, and a pointer or an [int] element
    takes 8. *)
Definition maxAlloc : Z := 2 ^ 48.
Definition hchanSize : Z := 96.
Definition PtrSize : Z := 8.

(** The check at the head of [makechan]: the size is negative, or the
    buffer of [size] elements does not fit under [maxAlloc]. *)
Definition makechan_rejects (elem_size size : Z) : bool :=
  (size <? 0)%Z || (maxAlloc - hchanSize <? elem_size * size)%Z.

(** [make(chan T, size)] for elements of [elem_size] bytes: a panic
    when [makechan] rejects the size, else an empty channel.  (Past the
    check, an allocation the machine cannot serve ends the process, as
    at every other allocation of the program; that is not modelled.) *)
Definition make_chan {A : Type} (elem_size : Z) (size : Z) : outcome (Chan A) :=
  if makechan_rejects elem_size size then Panic "makechan: size out of range"
  else Return (MkChan (Z.to_nat size) [] Away).

(** [make(chan T)]. *)
Definition make_chan_unbuffered {A : Type} : Chan A := MkChan 0 [] Away.

(** [select { case c <- a: default: }]: the send that does not block.
    [None] is the [default] branch.  A nil channel is never ready. *)
Definition try_send {A : Type} (c : option (Chan A)) (a : A) : option (Chan A) :=
  match c with
  | None => None
  | Some ch =>
      match chan_recv ch with
      | Parked => Some (MkChan (chan_cap ch) (chan_buf ch) (Handed a))
      | _ =>
          if decide (List.length (chan_buf ch) < chan_cap ch)
          then Some (MkChan (chan_cap ch) (chan_buf ch ++ [a]) (chan_recv ch))
          else None
      end
  end.

(** The receiver's side of [<-c]: the value handed over while parked,
    else the oldest buffered one; with neither, the receiver parks. *)
Definition recv {A : Type} (ch : Chan A) : option A * Chan A :=
  match chan_recv ch with
  | Handed a => (Some a, MkChan (chan_cap ch) (chan_buf ch) Away)
  | _ =>
      match chan_buf ch with
      | a :: rest => (Some a, MkChan (chan_cap ch) rest Away)
      | [] => (None, MkChan (chan_cap ch) [] Parked)
      end
  end.

End golang.

Export golang(error, result, Ok, Err, outcome, Return, Panic, value, VString, VInt, VBool, VOther).

(** ** Package [strings] *)

Module strings.

(** One byte of [strings.ToLower]: [A]..[Z] go to [a]..[z]. *)
Definition lower_byte (c : ascii) : ascii :=
  let n := N_of_ascii c in
  if ((65 <=? n) && (n <=? 90))%N then ascii_of_N (n + 32) else c.

(** [strings.ToLower] on the ASCII range.  Bytes outside it are kept:
    the Unicode case tables are not modelled, and no rune outside ASCII
    lowers to one of [v], [0], [1]. *)
Fixpoint ToLower (s : string) : string :=
  match s with
  | EmptyString => EmptyString
  | String c rest => String (lower_byte c) (ToLower rest)
  end.

End strings.

(** ** Package [fmt] *)

Module fmt.

(** [fmt.Sprintf("%v", value)]. *)
Definition Sprintf_v (v : value) : string :=
  match v with
  | VString s => s
  | VInt n => pretty n
  | VBool true => "true"
  | VBool false => "false"
  | VOther shown => shown
  end.

(** [fmt.Sprintf("%s:%d", server, port)]. *)
Definition Sprintf_s_colon_d (server : string) (port : Z) : string :=
  server +:+ ":" +:+ pretty port.

(** [fmt.Errorf(prefix + "%s", err)]. *)
Definition Errorf (prefix : string) (err : error) : error := prefix +:+ err.

End fmt.

(** ** Package [time] *)

Module time.

(** A [time.Time], held as the civil date and clock reading of its
    instant in UTC, which is what [UTC()] hands to [Format]. *)
Record Time : Type := MkTime {
  year : Z; month : Z; day : Z;
  hour : Z; minute : Z; second : Z;
  nanosecond : Z
}.

Definition UTC (t : Time) : Time := t.

(** [appendInt]: decimal, zero-padded to [width], sign first. *)
Definition appendInt (x : Z) (width : nat) : string :=
  let digits := pretty (Z.abs x) in
  (if (x <? 0)%Z then "-" else "")
    +:+ string_of_list_ascii (replicate (width - String.length digits) "0"%char)
    +:+ digits.

Fixpoint trim_zeros_rev (l : list ascii) : list ascii :=
  match l with
  | c :: rest => if decide (c = "0"%char) then trim_zeros_rev rest else l
  | [] => []
  end.

(** [appendNano] for the element [.999999999]: nothing for a zero
    fraction, else nine digits with the trailing zeros cut. *)
Definition appendNano (nanosec : Z) : string :=
  if (nanosec =? 0)%Z then ""
  else "." +:+ string_of_list_ascii
                (rev (trim_zeros_rev (rev (list_ascii_of_string (appendInt nanosec 9))))).

(** [t.Format(time.RFC3339Nano)] for a time in UTC, layout
    [2006-01-02T15:04:05.999999999Z07:00]. *)
Definition Format_RFC3339Nano (t : Time) : string :=
  appendInt (year t) 4 +:+ "-" +:+ appendInt (month t) 2 +:+ "-" +:+ appendInt (day t) 2
    +:+ "T" +:+ appendInt (hour t) 2 +:+ ":" +:+ appendInt (minute t) 2
    +:+ ":" +:+ appendInt (second t) 2 +:+ appendNano (nanosecond t) +:+ "Z".

End time.

(** ** Package [logrus] *)

Module logrus.

(** [type Level uint32], with logrus's constants:
    [PanicLevel Level = iota], then Fatal, Error, Warn, Info, Debug. *)
Definition Level : Type := N.

Definition PanicLevel : Level := 0%N.
Definition FatalLevel : Level := 1%N.
Definition ErrorLevel : Level := 2%N.
Definition WarnLevel  : Level := 3%N.
Definition InfoLevel  : Level := 4%N.
Definition DebugLevel : Level := 5%N.

(** The zero value of the type. *)
Definition zero_Level : Level := 0%N.

(** [func (level Level) String() string]. *)
Definition Level_String (level : Level) : string :=
  if decide (level = DebugLevel) then "debug"
  else if decide (level = InfoLevel) then "info"
  else if decide (level = WarnLevel) then "warning"
  else if decide (level = ErrorLevel) then "error"
  else if decide (level = FatalLevel) then "fatal"
  else if decide (level = PanicLevel) then "panic"
  else "unknown".

(** [type Entry struct]: the fields the hook reads.  [Data] is
    [logrus.Fields], a [map[string]interface{}]. *)
Record Entry : Type := MkEntry {
  Data : gmap string value;
  Time : time.Time;
  Level_ : Level;
  Message : string
}.

End logrus.

(** ** Package [encoding/json] *)

Module json.

(** *** Strings as the encoder writes them

    [encoding/json] walks a Go string rune by rune and writes U+FFFD in
    place of every byte that does not start a well-formed UTF-8
    sequence ([utf8.DecodeRuneInString] answering [RuneError] with
    width 1).  [utf8] is that walk, on the bytes of the string. *)

(** U+FFFD in UTF-8: the bytes [EF BF BD]. *)
Definition replacement : string :=
  String (ascii_of_N 239) (String (ascii_of_N 191) (String (ascii_of_N 189) EmptyString)).

Definition in_range (lo hi : N) (c : ascii) : bool :=
  ((lo <=? N_of_ascii c) && (N_of_ascii c <=? hi))%N.

(** A continuation byte, [80]..[BF]. *)
Definition continuation (c : ascii) : bool := in_range 128 191 c.

(** The bytes that start a sequence of two, three or four bytes, with
    the range their second byte must lie in (the table [first] and the
    [acceptRanges] of package [unicode/utf8]). *)
Definition lead2 (c : ascii) : bool := in_range 194 223 c.

Definition lead3 (c : ascii) : option (N * N) :=
  let b := N_of_ascii c in
  if (b =? 224)%N then Some (160, 191)%N
  else if (b =? 237)%N then Some (128, 159)%N
  else if in_range 225 239 c then Some (128, 191)%N
  else None.

Definition lead4 (c : ascii) : option (N * N) :=
  let b := N_of_ascii c in
  if (b =? 240)%N then Some (144, 191)%N
  else if in_range 241 243 c then Some (128, 191)%N
  else if (b =? 244)%N then Some (128, 143)%N
  else None.

(** The well-formed sequence a string starts with, if it starts with
    one of more than one byte: the sequence and what follows it. *)
Definition sequence (s : string) : option (string * string) :=
  match s with
  | String c (String c1 rest1) =>
      if lead2 c && continuation c1
      then Some (String c (String c1 EmptyString), rest1)
      else
        match rest1 with
        | String c2 rest2 =>
            match lead3 c with
            | Some (lo, hi) =>
                if in_range lo hi c1 && continuation c2
                then Some (String c (String c1 (String c2 EmptyString)), rest2)
                else None
            | None =>
                match lead4 c, rest2 with
                | Some (lo, hi), String c3 rest3 =>
                    if in_range lo hi c1 && continuation c2 && continuation c3
                    then Some (String c (String c1 (String c2 (String c3 EmptyString))),
                               rest3)
                    else None
                | _, _ => None
                end
            end
        | EmptyString => None
        end
  | _ => None
  end.

(** The walk over the string: an ASCII byte and a well-formed sequence
    are kept, any other byte gives way to U+FFFD and the walk goes on
    at the byte after it. *)
Fixpoint utf8_fuel (fuel : nat) (s : string) : string :=
  match fuel, s with
  | O, _ => EmptyString
  | _, EmptyString => EmptyString
  | S fuel, String c rest =>
      if (N_of_ascii c <? 128)%N then String c (utf8_fuel fuel rest)
      else
        match sequence s with
        | Some (kept, rest') => kept +:+ utf8_fuel fuel rest'
        | None => replacement +:+ utf8_fuel fuel rest
        end
  end.

(** Every step consumes at least one byte, so the length of the string
    is fuel enough. *)
Definition utf8 (s : string) : string := utf8_fuel (String.length s) s.

(** What [json.Marshal] writes, as the JSON value it encodes; members
    of an object are in the order the encoder emits them.  A JSON
    string is held as its UTF-8 text.  The escapes the encoder uses in
    its output bytes do not change the value and are not modelled. *)
Inductive Value : Type :=
| Null
| Text (s : string)
| Object (members : list (string * Value)).

(** The JSON string the encoder writes for a Go string. *)
Definition Str (s : string) : Value := Text (utf8 s).

Definition key_le (a b : string * string) : Prop := String.leb (fst a) (fst b) = true.

#[global] Instance key_le_dec (a b : string * string) : Decision (key_le a b).
Proof. unfold key_le. apply _. Defined.

(** A [map[string]string]: [null] for a nil map, else an object with
    one member per key, in the ascending order of the keys as Go
    strings; the names are written like every other string. *)
Definition marshal_map (m : option (gmap string string)) : Value :=
  match m with
  | None => Null
  | Some m =>
      Object (map (λ kv, (utf8 (fst kv), Str (snd kv))) (merge_sort key_le (map_to_list m)))
  end.

(** A string field tagged [omitempty]. *)
Definition omitempty (name : string) (s : string) : list (string * Value) :=
  if decide (s = "") then [] else [(name, Str s)].

(** The member names of an object, in order. *)
Definition names (v : Value) : list string :=
  match v with
  | Object members => map fst members
  | _ => []
  end.

(** The value of the first member called [name]. *)
Definition member (name : string) (v : Value) : option Value :=
  match v with
  | Object members => snd <$> List.find (λ kv, bool_decide (fst kv = name)) members
  | _ => None
  end.

End json.

(** ** Package [redigo/redis] and the world outside the process *)

Module redis.

(** The two commands the hook sends. *)
Inductive Command : Type :=
| PING
| RPUSH (key : string) (element : json.Value).

(** The servers reachable from the process: [reply_err addr cmd] is
    the error that sending [cmd] over a connection to [addr] ends in
    (dial failure, transport error or error reply), [None] when the
    server answers; [lists] are the lists each server holds, by
    address and key. *)
Record Net : Type := MkNet {
  reply_err : string → Command → option error;
  lists : gmap (string * string) (list json.Value)
}.

(** [redis.Pool]: the settings, and the address its [Dial] connects to. *)
Record Pool : Type := MkPool {
  MaxIdle : Z;
  IdleTimeout : Z;
  Dial_address : string
}.

Record Conn : Type := MkConn { conn_address : string }.

(** [pool.Get()] never fails by itself: an error of [Dial] shows at
    the first [Do]. *)
Definition Get (pool : Pool) : Conn := MkConn (Dial_address pool).

(** [conn.Do(cmd...)] followed by the deferred [conn.Close()]. *)
Definition Do (conn : Conn) (cmd : Command) (n : Net) : Net * result unit :=
  match reply_err n (conn_address conn) cmd with
  | Some err => (n, Err err)
  | None =>
      match cmd with
      | PING => (n, Ok ())
      | RPUSH key element =>
          let at_key := (conn_address conn, key) in
          (MkNet (reply_err n)
                 (<[at_key := default [] (lists n !! at_key) ++ [element]]> (lists n)),
           Ok ())
      end
  end.

End redis.

(** What the hook's functions read and write outside their arguments:
    the Redis servers, the result of [os.Hostname()] and the lines
    printed on standard output. *)
Record World : Type := MkWorld {
  net : redis.Net;
  os_Hostname : result string;
  stdout : list string
}.

Definition set_net (w : World) (n : redis.Net) : World :=
  MkWorld n (os_Hostname w) (stdout w).

(** [fmt.Println(line)]. *)
Definition Println (line : string) (w : World) : World :=
  MkWorld (net w) (os_Hostname w) (stdout w ++ [line]).

(** ** [logrus_redis.go] *)

(** [RedisHook] to sends logs to Redis server.  The two channels are
    held with their current contents, so a hook value is the Go object
    together with the state of its queue; the functions that touch the
    queue return the hook they leave behind. *)
Record RedisHook : Type := MkRedisHook {
  RedisPool : redis.Pool;
  RedisHost : string;
  RedisKey : string;
  LogstashFormat : string;
  RedisPort : Z;
  Level : logrus.Level;
  Async : bool;
  EntryQueue : option (golang.Chan logrus.Entry);
  Quit : option (golang.Chan Z)
}.

Definition set_EntryQueue (hook : RedisHook) (q : option (golang.Chan logrus.Entry)) : RedisHook :=
  MkRedisHook (RedisPool hook) (RedisHost hook) (RedisKey hook) (LogstashFormat hook)
    (RedisPort hook) (Level hook) (Async hook) q (Quit hook).

Definition set_Quit (hook : RedisHook) (q : option (golang.Chan Z)) : RedisHook :=
  MkRedisHook (RedisPool hook) (RedisHost hook) (RedisKey hook) (LogstashFormat hook)
    (RedisPort hook) (Level hook) (Async hook) (EntryQueue hook) q.

(** The anonymous struct behind [Fields] in both message types. *)
Module Fields.
Record t : Type := Mk { File : string; Level : string; Timestamp : string }.
Definition zero : t := Mk "" "" "".
Definition set_Level (f : t) (s : string) : t := Mk (File f) s (Timestamp f).

Definition marshal (f : t) : json.Value :=
  json.Object [ ("file", json.Str (File f));
                ("level", json.Str (Level f));
                ("timestamp", json.Str (Timestamp f)) ].
End Fields.

(** [LogstashMessageV0] represents v0 format. *)
Module V0.
Record LogstashMessageV0 : Type := Mk {
  Type_ : string;
  Timestamp : string;
  Sourcehost : string;
  Message : string;
  Level : string;
  Fields : Fields.t;
  CustomFields : option (gmap string string)
}.

(** [LogstashMessageV0{}]. *)
Definition zero : LogstashMessageV0 := Mk "" "" "" "" "" Fields.zero None.

Definition set_Timestamp (m : LogstashMessageV0) (s : string) :=
  Mk (Type_ m) s (Sourcehost m) (Message m) (Level m) (Fields m) (CustomFields m).
Definition set_Sourcehost (m : LogstashMessageV0) (s : string) :=
  Mk (Type_ m) (Timestamp m) s (Message m) (Level m) (Fields m) (CustomFields m).
Definition set_Message (m : LogstashMessageV0) (s : string) :=
  Mk (Type_ m) (Timestamp m) (Sourcehost m) s (Level m) (Fields m) (CustomFields m).
Definition set_Fields_Level (m : LogstashMessageV0) (s : string) :=
  Mk (Type_ m) (Timestamp m) (Sourcehost m) (Message m) (Level m)
     (Fields.set_Level (Fields m) s) (CustomFields m).
Definition set_CustomFields (m : LogstashMessageV0) (c : gmap string string) :=
  Mk (Type_ m) (Timestamp m) (Sourcehost m) (Message m) (Level m) (Fields m) (Some c).

(** The struct under its [json] tags. *)
Definition marshal (m : LogstashMessageV0) : json.Value :=
  json.Object
    (json.omitempty "@type" (Type_ m) ++
     [ ("@timestamp", json.Str (Timestamp m));
       ("@source_host", json.Str (Sourcehost m));
       ("@message", json.Str (Message m));
       ("@level", json.Str (Level m));
       ("@fields", Fields.marshal (Fields m));
       ("@custom_fields", json.marshal_map (CustomFields m)) ]).
End V0.

(** [LogstashMessageV1] represents v1 format. *)
Module V1.
Record LogstashMessageV1 : Type := Mk {
  Type_ : string;
  Timestamp : string;
  Sourcehost : string;
  Message : string;
  Fields : Fields.t;
  CustomFields : option (gmap string string)
}.

(** [LogstashMessageV1{}]. *)
Definition zero : LogstashMessageV1 := Mk "" "" "" "" Fields.zero None.

Definition set_Timestamp (m : LogstashMessageV1) (s : string) :=
  Mk (Type_ m) s (Sourcehost m) (Message m) (Fields m) (CustomFields m).
Definition set_Sourcehost (m : LogstashMessageV1) (s : string) :=
  Mk (Type_ m) (Timestamp m) s (Message m) (Fields m) (CustomFields m).
Definition set_Message (m : LogstashMessageV1) (s : string) :=
  Mk (Type_ m) (Timestamp m) (Sourcehost m) s (Fields m) (CustomFields m).
Definition set_Fields_Level (m : LogstashMessageV1) (s : string) :=
  Mk (Type_ m) (Timestamp m) (Sourcehost m) (Message m)
     (Fields.set_Level (Fields m) s) (CustomFields m).
Definition set_CustomFields (m : LogstashMessageV1) (c : gmap string string) :=
  Mk (Type_ m) (Timestamp m) (Sourcehost m) (Message m) (Fields m) (Some c).

(** The struct under its [json] tags. *)
Definition marshal (m : LogstashMessageV1) : json.Value :=
  json.Object
    (json.omitempty "@type" (Type_ m) ++
     [ ("@timestamp", json.Str (Timestamp m));
       ("host", json.Str (Sourcehost m));
       ("message", json.Str (Message m));
       ("@fields", Fields.marshal (Fields m));
       ("@custom_fields", json.marshal_map (CustomFields m)) ]).
End V1.

(** The [msg interface{}] of [processEntry]: nil until a case of the
    switch assigns it. *)
Inductive Msg : Type :=
| MsgNil
| MsgV0 (m : V0.LogstashMessageV0)
| MsgV1 (m : V1.LogstashMessageV1).

(** [json.Marshal(msg)].  None of the three shapes makes it fail. *)
Definition json_Marshal (msg : Msg) : result json.Value :=
  match msg with
  | MsgNil => Ok json.Null
  | MsgV0 m => Ok (V0.marshal m)
  | MsgV1 m => Ok (V1.marshal m)
  end.

Definition reportHostname (w : World) : string :=
  match os_Hostname w with
  | Err _ => "unknown"
  | Ok h => h
  end.

Definition newRedisConnectionPool (server : string) (port : Z) : redis.Pool :=
  let hostPort := fmt.Sprintf_s_colon_d server port in
  redis.MkPool 3 (240 * 1000000000) hostPort.

(** The loop over [entry.Data]; [map_fold] visits each key once, in an
    order of its own, as [range] does. *)
Definition logEntryToStringMap (entry : logrus.Entry) : gmap string string :=
  let m : gmap string string := ∅ in
  if decide (0 < size (logrus.Data entry)) then
    map_fold
      (λ key value m,
         match value with
         | VString str => <[key := str]> m
         | _ => <[key := fmt.Sprintf_v value]> m
         end)
      m (logrus.Data entry)
  else m.

Definition createV0Message (w : World) (entry : logrus.Entry) : V0.LogstashMessageV0 :=
  let m := V0.zero in
  let m := V0.set_Timestamp m (time.Format_RFC3339Nano (time.UTC (logrus.Time entry))) in
  let m := V0.set_Sourcehost m (reportHostname w) in
  let m := V0.set_Message m (logrus.Message entry) in
  let m := V0.set_Fields_Level m (logrus.Level_String (logrus.Level_ entry)) in
  let m := V0.set_CustomFields m (logEntryToStringMap entry) in
  m.

Definition createV1Message (w : World) (entry : logrus.Entry) : V1.LogstashMessageV1 :=
  let m := V1.zero in
  let m := V1.set_Timestamp m (time.Format_RFC3339Nano (time.UTC (logrus.Time entry))) in
  let m := V1.set_Sourcehost m (reportHostname w) in
  let m := V1.set_Message m (logrus.Message entry) in
  let m := V1.set_Fields_Level m (logrus.Level_String (logrus.Level_ entry)) in
  let m := V1.set_CustomFields m (logEntryToStringMap entry) in
  m.

Definition processEntry (hook : RedisHook) (entry : logrus.Entry) (w : World)
    : World * option error :=
  let msg :=
    if decide (LogstashFormat hook = "v0") then MsgV0 (createV0Message w entry)
    else if decide (LogstashFormat hook = "v1") then MsgV1 (createV1Message w entry)
    else MsgNil in
  match json_Marshal msg with
  | Err err => (w, Some (fmt.Errorf "error creating message for REDIS: " err))
  | Ok js =>
      let conn := redis.Get (RedisPool hook) in
      match redis.Do conn (redis.RPUSH (RedisKey hook) js) (net w) with
      | (n, Err err) => (set_net w n, Some (fmt.Errorf "error sending message to REDIS: " err))
      | (n, Ok _) => (set_net w n, None)
      end
  end.

(** One turn of the [for]/[select] loop of [asyncProcessing], taken on
    the [EntryQueue] case: nothing in the package sends on [Quit].  The
    error of [processEntry] is dropped, as in the source. *)
Definition asyncProcessing_turn (hook : RedisHook) (w : World) : RedisHook * World :=
  match EntryQueue hook with
  | None => (hook, w)
  | Some ch =>
      match golang.recv ch with
      | (Some entry, ch') =>
          (set_EntryQueue hook (Some ch'), fst (processEntry hook entry w))
      | (None, ch') => (set_EntryQueue hook (Some ch'), w)
      end
  end.

(** [Levels] returns the available logging levels. *)
Definition Levels (hook : RedisHook) : list logrus.Level :=
  let levels := golang.make_slice logrus.zero_Level 1 in
  golang.switch_fallthrough (Level hook)
    [ (logrus.DebugLevel, λ levels, golang.append levels logrus.DebugLevel);
      (logrus.InfoLevel,  λ levels, golang.append levels logrus.InfoLevel);
      (logrus.WarnLevel,  λ levels, golang.append levels logrus.WarnLevel);
      (logrus.ErrorLevel, λ levels, golang.append levels logrus.ErrorLevel);
      (logrus.FatalLevel, λ levels, golang.append levels logrus.FatalLevel);
      (logrus.PanicLevel, λ levels, golang.append levels logrus.PanicLevel) ]
    levels.

(** [Fire] is called when a log event is fired. *)
Definition Fire (hook : RedisHook) (entry : logrus.Entry) (w : World)
    : RedisHook * World * option error :=
  if Async hook then
    match golang.try_send (EntryQueue hook) entry with
    | Some ch => (set_EntryQueue hook (Some ch), w, None)
    | None =>
        (hook, Println "Buffer of redis hook's channel is full, log entry discarded" w, None)
    end
  else
    let '(w, err) := processEntry hook entry w in (hook, w, err).

(** [NewHook] creates a hook to be added to an instance of logger.  The
    goroutine started in async mode has not run yet when [NewHook]
    returns: the queue is empty and its receiver [Away]. *)
Definition NewHook (host : string) (port : Z) (key : string) (format : string)
    (level : logrus.Level) (async : bool) (bufferSize : Z) (w : World)
    : World * outcome (option RedisHook * option error) :=
  let pool := newRedisConnectionPool host port in
  let conn := redis.Get pool in
  match redis.Do conn redis.PING (net w) with
  | (n, Err err) =>
      (set_net w n, Return (None, Some (fmt.Errorf "unable to connect to REDIS: " err)))
  | (n, Ok _) =>
      let w := set_net w n in
      let format :=
        if decide (strings.ToLower format ≠ "v0" ∧ strings.ToLower format ≠ "v1")
        then "v0" else format in
      let redisHook := MkRedisHook pool host key format 0 level async None None in
      if async then
        match golang.make_chan golang.PtrSize bufferSize with
        | Panic msg => (w, Panic msg)
        | Return queue =>
            let redisHook := set_EntryQueue redisHook (Some queue) in
            let redisHook := set_Quit redisHook (Some golang.make_chan_unbuffered) in
            (w, Return (Some redisHook, None))
        end
      else (w, Return (Some redisHook, None))
  end.

(** ** Vocabulary of the specification

    The notions the prose specification uses to describe the hook,
    written down once so that the theorems can compare the functions
    above with them. *)

Module Spec.

(** The fixed ordering debug < info < warn < error < fatal < panic. *)
Definition severity_order : list logrus.Level :=
  [ logrus.DebugLevel; logrus.InfoLevel; logrus.WarnLevel;
    logrus.ErrorLevel; logrus.FatalLevel; logrus.PanicLevel ].

(** One of the six known levels. *)
Definition known (l : logrus.Level) : Prop := l ∈ severity_order.

(** The rank of a known level in the ordering. *)
Definition severity (l : logrus.Level) : option nat :=
  fst <$> list_find (λ x, x = l) severity_order.

(** [l] is at or more severe than the threshold [min]. *)
Definition at_or_above (min l : logrus.Level) : bool :=
  match severity min, severity l with
  | Some i, Some j => bool_decide (i ≤ j)%nat
  | _, _ => false
  end.

(** The severities at or above the threshold, least severe first. *)
Definition enabled_from (min : logrus.Level) : list logrus.Level :=
  List.filter (at_or_above min) severity_order.

(** The reserved placeholder: the zero value a fresh slice holds. *)
Definition placeholder : logrus.Level := logrus.zero_Level.

(** The display form of a custom field: a string as it is, any other
    value as [%v] prints it. *)
Definition display (v : value) : string :=
  match v with
  | VString s => s
  | _ => fmt.Sprintf_v v
  end.

(** Members of an envelope renamed or dropped by name. *)
Definition rename_member (old new : string) (v : json.Value) : json.Value :=
  match v with
  | json.Object members =>
      json.Object (map (λ kv, (if decide (fst kv = old) then new else fst kv, snd kv)) members)
  | _ => v
  end.

Definition drop_member (name : string) (v : json.Value) : json.Value :=
  match v with
  | json.Object members =>
      json.Object (List.filter (λ kv, bool_decide (fst kv ≠ name)) members)
  | _ => v
  end.

(** The delivery sink of the specification: one push of the payload
    onto the list under the hook's key, a transport error coming back
    as a send failure. *)
Definition deliver (hook : RedisHook) (js : json.Value) (w : World) : World * option error :=
  match redis.Do (redis.Get (RedisPool hook)) (redis.RPUSH (RedisKey hook) js) (net w) with
  | (n, Err err) => (set_net w n, Some ("error sending message to REDIS: " +:+ err))
  | (n, Ok _) => (set_net w n, None)
  end.

(** The queue of an async hook is at capacity and no receiver waits
    on it. *)
Definition queue_full (hook : RedisHook) : Prop :=
  ∃ ch, EntryQueue hook = Some ch
        ∧ golang.chan_recv ch ≠ golang.Parked
        ∧ (golang.chan_cap ch ≤ List.length (golang.chan_buf ch))%nat.

(** The construction-time health check: the error of [PING] at the
    hook's address, if any. *)
Definition ping_err (host : string) (port : Z) (w : World) : option error :=
  redis.reply_err (net w) (fmt.Sprintf_s_colon_d host port) redis.PING.

(** The list a server holds under a key. *)
Definition list_at (host : string) (port : Z) (key : string) (w : World) : list json.Value :=
  default [] (redis.lists (net w) !! (fmt.Sprintf_s_colon_d host port, key)).

End Spec.

(** ** Sample inputs *)

Module Sample.

(** A world with a server that answers every command, no list yet. *)
Definition world_up : World :=
  MkWorld (redis.MkNet (λ _ _, None) ∅) (Ok "box") [].

(** A world where every command ends in a dial error. *)
Definition world_down : World :=
  MkWorld (redis.MkNet (λ _ _, Some "dial tcp: connection refused") ∅) (Ok "box") [].

(** The entry of the example program: [log.WithFields(...).Info(...)]. *)
Definition entry : logrus.Entry :=
  logrus.MkEntry
    {[ "animal" := VString "walrus"; "number" := VInt 1; "size" := VInt 10 ]}
    (time.MkTime 2017 3 9 4 5 6 120000000)
    logrus.InfoLevel
    "and with fields".

(** A hook as [NewHook] leaves it, with a given level, mode and queue. *)
Definition hook (format : string) (level : logrus.Level) (async : bool)
    (queue : option (golang.Chan logrus.Entry)) : RedisHook :=
  MkRedisHook (newRedisConnectionPool "localhost" 6379) "localhost" "my_redis_key"
    format 0 level async queue (if async then Some golang.make_chan_unbuffered else None).

End Sample.

(** ** Runs of the hook

    What is needed to speak of several calls in a row: the entries a
    queue holds, producers calling [Fire] and the worker taking turns. *)

Module Queue.

(** The entries a channel holds for its receiver, oldest first: the one
    handed to the woken receiver, then the buffer. *)
Definition pending {A : Type} (ch : golang.Chan A) : list A :=
  match golang.chan_recv ch with
  | golang.Handed a => a :: golang.chan_buf ch
  | _ => golang.chan_buf ch
  end.

(** How many sends the channel still takes without blocking: the free
    slots of the buffer, and one more while the receiver is parked. *)
Definition room {A : Type} (ch : golang.Chan A) : nat :=
  match golang.chan_recv ch with
  | golang.Parked => S (golang.chan_cap ch - List.length (golang.chan_buf ch))
  | _ => golang.chan_cap ch - List.length (golang.chan_buf ch)
  end.

(** The buffer is within its capacity, and is empty while the receiver
    is parked. *)
Definition bounded {A : Type} (ch : golang.Chan A) : Prop :=
  (List.length (golang.chan_buf ch) ≤ golang.chan_cap ch)%nat
  ∧ (golang.chan_recv ch = golang.Parked → golang.chan_buf ch = []).

End Queue.

(** The line [Fire] prints when it drops an entry. *)
Definition discarded : string :=
  "Buffer of redis hook's channel is full, log entry discarded".

(** The entries a hook holds for its worker, oldest first. *)
Definition queued (hook : RedisHook) : list logrus.Entry :=
  match EntryQueue hook with
  | Some ch => Queue.pending ch
  | None => []
  end.

(** The JSON value [processEntry] hands to [RPUSH], by stored format. *)
Definition payload (hook : RedisHook) (entry : logrus.Entry) (w : World) : json.Value :=
  if decide (LogstashFormat hook = "v0") then V0.marshal (createV0Message w entry)
  else if decide (LogstashFormat hook = "v1") then V1.marshal (createV1Message w entry)
  else json.Null.

(** The [RPUSH] of [processEntry], as the server sees it. *)
Definition push_command (hook : RedisHook) (entry : logrus.Entry) (w : World) : redis.Command :=
  redis.RPUSH (RedisKey hook) (payload hook entry w).

(** The error, if any, that this [RPUSH] ends in. *)
Definition push_err (hook : RedisHook) (entry : logrus.Entry) (w : World) : option error :=
  redis.reply_err (net w) (redis.Dial_address (RedisPool hook)) (push_command hook entry w).

(** The list under the hook's key on the server its pool dials. *)
Definition hook_list (hook : RedisHook) (w : World) : list json.Value :=
  default [] (redis.lists (net w) !! (redis.Dial_address (RedisPool hook), RedisKey hook)).

(** [Fire] on each entry in turn, the worker not running in between. *)
Fixpoint Fire_each (hook : RedisHook) (entries : list logrus.Entry) (w : World)
    : RedisHook * World :=
  match entries with
  | [] => (hook, w)
  | entry :: rest =>
      let '(hook, w, _) := Fire hook entry w in Fire_each hook rest w
  end.

(** [n] turns of the loop of [asyncProcessing]. *)
Fixpoint asyncProcessing_turns (n : nat) (hook : RedisHook) (w : World) : RedisHook * World :=
  match n with
  | O => (hook, w)
  | S n => let '(hook, w) := asyncProcessing_turn hook w in asyncProcessing_turns n hook w
  end.

(** [processEntry] on each entry in order, errors dropped. *)
Definition processEntry_each (hook : RedisHook) (entries : list logrus.Entry) (w : World)
    : World :=
  foldl (λ w entry, fst (processEntry hook entry w)) w entries.

(** One thing that happens to a hook: a producer fires an entry, or
    the worker takes a turn. *)
Inductive action : Type :=
| Fires (entry : logrus.Entry)
| Turn.

(** A schedule of producers and worker, run from left to right. *)
Fixpoint run (schedule : list action) (hook : RedisHook) (w : World) : RedisHook * World :=
  match schedule with
  | [] => (hook, w)
  | Fires entry :: rest => let '(hook, w, _) := Fire hook entry w in run rest hook w
  | Turn :: rest => let '(hook, w) := asyncProcessing_turn hook w in run rest hook w
  end.

(** ** Levels *)

Section LevelsFacts.

(** The cascade written out: the slice starts with one zero value and
    each known level adds itself and the more severe ones. *)
Lemma Levels_cases (hook : RedisHook) :
  Levels hook =
    logrus.zero_Level ::
      (if decide (Level hook = logrus.DebugLevel) then
         [logrus.DebugLevel; logrus.InfoLevel; logrus.WarnLevel;
          logrus.ErrorLevel; logrus.FatalLevel; logrus.PanicLevel]
       else if decide (Level hook = logrus.InfoLevel) then
         [logrus.InfoLevel; logrus.WarnLevel;
          logrus.ErrorLevel; logrus.FatalLevel; logrus.PanicLevel]
       else if decide (Level hook = logrus.WarnLevel) then
         [logrus.WarnLevel; logrus.ErrorLevel; logrus.FatalLevel; logrus.PanicLevel]
       else if decide (Level hook = logrus.ErrorLevel) then
         [logrus.ErrorLevel; logrus.FatalLevel; logrus.PanicLevel]
       else if decide (Level hook = logrus.FatalLevel) then
         [logrus.FatalLevel; logrus.PanicLevel]
       else if decide (Level hook = logrus.PanicLevel) then
         [logrus.PanicLevel]
       else []).
Proof.
  unfold Levels, golang.switch_fallthrough.
  repeat (case_decide; [reflexivity |]).
  reflexivity.
Qed.

Lemma known_cases (l : logrus.Level) :
  Spec.known l ↔
    l = logrus.DebugLevel ∨ l = logrus.InfoLevel ∨ l = logrus.WarnLevel ∨
    l = logrus.ErrorLevel ∨ l = logrus.FatalLevel ∨ l = logrus.PanicLevel.
Proof.
  unfold Spec.known, Spec.severity_order.
  rewrite !elem_of_cons, elem_of_nil. tauto.
Qed.

Lemma Levels_unknown (hook : RedisHook) :
  ¬ Spec.known (Level hook) → Levels hook = [logrus.zero_Level].
Proof.
  rewrite known_cases, Levels_cases. intros Hunknown.
  repeat (case_decide; [tauto |]). reflexivity.
Qed.

End LevelsFacts.

(** C2.  For each of the six known levels as minimum level, [Levels]
    returns the reserved placeholder followed by exactly the severities
    at or above that threshold in the ordering
    debug < info < warn < error < fatal < panic. *)
Theorem Levels_threshold (hook : RedisHook) :
  Spec.known (Level hook) →
  Levels hook = Spec.placeholder :: Spec.enabled_from (Level hook)
  ∧ ∀ l : logrus.Level,
      l ∈ Spec.enabled_from (Level hook)
      ↔ Spec.known l ∧ Spec.at_or_above (Level hook) l = true.
Proof.
  intros Hknown. split.
  - revert Hknown. rewrite known_cases, Levels_cases.
    intros [-> | [-> | [-> | [-> | [-> | ->]]]]]; reflexivity.
  - intros l. unfold Spec.enabled_from, Spec.known.
    rewrite !list_elem_of_In. apply filter_In.
Qed.

(** For [minLevel = warn]: placeholder, then warn, error, fatal, panic. *)
Lemma Levels_threshold_warn :
  Spec.known logrus.WarnLevel ∧
  Levels (Sample.hook "v0" logrus.WarnLevel false None) =
    [ Spec.placeholder; logrus.WarnLevel; logrus.ErrorLevel;
      logrus.FatalLevel; logrus.PanicLevel ].
Proof.
  assert (Hknown : Spec.known logrus.WarnLevel).
  { apply known_cases. tauto. }
  split; [exact Hknown |].
  exact (proj1 (Levels_threshold (Sample.hook "v0" logrus.WarnLevel false None) Hknown)).
Defined.

(** C10.  Whatever the minimum level, known or not, the list [Levels]
    returns starts with the zero value of the level type, that zero
    value is the panic level, and so the list contains the panic
    level. *)
Theorem Levels_starts_with_panic (hook : RedisHook) :
  Levels hook !! 0%nat = Some logrus.zero_Level
  ∧ logrus.zero_Level = logrus.PanicLevel
  ∧ logrus.PanicLevel ∈ Levels hook.
Proof.
  rewrite Levels_cases. split; [reflexivity |]. split; [reflexivity |].
  apply elem_of_cons. left. reflexivity.
Qed.

(** C5 as worded fails: with a level outside the six known ones the
    single entry returned is not an invalid one, it is the panic level. *)
Lemma Levels_unknown_entry_is_a_level :
  ¬ (∃ p, Levels (Sample.hook "v0" 6%N false None) = [p]
          ∧ p = logrus.zero_Level ∧ ¬ Spec.known p).
Proof.
  intros (p & Hlevels & -> & Hinvalid).
  apply Hinvalid, known_cases. do 5 right. reflexivity.
Qed.

(** C5, amended.  When the minimum level is none of the six known
    levels, [Levels] returns exactly one entry, the zero value at index
    0, and that value is the panic level. *)
Theorem Levels_unknown_single_zero (hook : RedisHook) :
  ¬ Spec.known (Level hook) →
  Levels hook = [logrus.zero_Level]
  ∧ logrus.zero_Level = logrus.PanicLevel
  ∧ Spec.known logrus.zero_Level.
Proof.
  intros Hunknown. split; [by apply Levels_unknown |].
  split; [reflexivity |]. apply known_cases. do 5 right. reflexivity.
Qed.

Lemma Levels_unknown_single_zero_at_6 :
  ¬ Spec.known 6%N ∧
  Levels (Sample.hook "v0" 6%N false None) = [logrus.zero_Level].
Proof.
  assert (Hunknown : ¬ Spec.known 6%N).
  { rewrite known_cases. intros [H | [H | [H | [H | [H | H]]]]]; discriminate H. }
  split; [exact Hunknown |].
  exact (proj1 (Levels_unknown_single_zero (Sample.hook "v0" 6%N false None) Hunknown)).
Defined.

(** ** The message formatter *)

Section Formatter.

(** The loop of [logEntryToStringMap] maps every value of the field
    map to its display form, whatever order the keys are visited in. *)
Lemma logEntryToStringMap_fmap (entry : logrus.Entry) :
  logEntryToStringMap entry = Spec.display <$> logrus.Data entry.
Proof.
  unfold logEntryToStringMap.
  destruct (decide (0 < size (logrus.Data entry))) as [Hsome | Hnone].
  - apply (map_fold_weak_ind
             (λ (r : gmap string string) (d : gmap string value), r = Spec.display <$> d)).
    + by rewrite fmap_empty.
    + intros key v d r _ ->. rewrite fmap_insert.
      destruct v; reflexivity.
  - assert (Hempty : logrus.Data entry = ∅).
    { apply map_size_empty_iff. lia. }
    by rewrite Hempty, fmap_empty.
Qed.

Lemma createV0Message_fields (w : World) (entry : logrus.Entry) :
  createV0Message w entry =
    V0.Mk "" (time.Format_RFC3339Nano (logrus.Time entry)) (reportHostname w)
      (logrus.Message entry) ""
      (Fields.Mk "" (logrus.Level_String (logrus.Level_ entry)) "")
      (Some (logEntryToStringMap entry)).
Proof. reflexivity. Qed.

Lemma createV1Message_fields (w : World) (entry : logrus.Entry) :
  createV1Message w entry =
    V1.Mk "" (time.Format_RFC3339Nano (logrus.Time entry)) (reportHostname w)
      (logrus.Message entry)
      (Fields.Mk "" (logrus.Level_String (logrus.Level_ entry)) "")
      (Some (logEntryToStringMap entry)).
Proof. reflexivity. Qed.

End Formatter.

(** C7.  The custom-fields mapping of the envelope has one entry per
    key of the entry's field map: a string value is copied as it is,
    any other value is put in its default display form.  In particular
    the fields [animal: "walrus", number: 1] give, under V0,
    [animal: "walrus", number: "1"]. *)
Theorem custom_fields_display :
  (∀ (w : World) (entry : logrus.Entry),
     V0.CustomFields (createV0Message w entry) = Some (logEntryToStringMap entry)
     ∧ V1.CustomFields (createV1Message w entry) = Some (logEntryToStringMap entry)
     ∧ logEntryToStringMap entry = Spec.display <$> logrus.Data entry
     ∧ dom (logEntryToStringMap entry) = dom (logrus.Data entry))
  ∧ (∀ (entry : logrus.Entry) (key s : string),
       logrus.Data entry !! key = Some (VString s) →
       logEntryToStringMap entry !! key = Some s)
  ∧ (∀ (entry : logrus.Entry) (key : string) (v : value),
       logrus.Data entry !! key = Some v → (∀ s, v ≠ VString s) →
       logEntryToStringMap entry !! key = Some (fmt.Sprintf_v v))
  ∧ (∀ (w : World) (t : time.Time) (level : logrus.Level) (message : string),
       V0.CustomFields
         (createV0Message w
            (logrus.MkEntry {[ "animal" := VString "walrus"; "number" := VInt 1 ]}
               t level message))
       = Some {[ "animal" := "walrus"; "number" := "1" ]}).
Proof.
  split; [| split; [| split]].
  - intros w entry. rewrite createV0Message_fields, createV1Message_fields. simpl.
    rewrite logEntryToStringMap_fmap.
    split; [reflexivity |]. split; [reflexivity |]. split; [reflexivity |].
    apply dom_fmap_L.
  - intros entry key s Hkey.
    by rewrite logEntryToStringMap_fmap, lookup_fmap, Hkey.
  - intros entry key v Hkey _.
    rewrite logEntryToStringMap_fmap, lookup_fmap, Hkey. by destruct v.
  - intros w t level message. rewrite createV0Message_fields. simpl.
    rewrite logEntryToStringMap_fmap. reflexivity.
Qed.

(** The sample entry: [animal] is copied, [number] and [size] are
    printed in decimal. *)
Lemma custom_fields_display_sample :
  logrus.Data Sample.entry !! "animal" = Some (VString "walrus")
  ∧ logrus.Data Sample.entry !! "number" = Some (VInt 1)
  ∧ logEntryToStringMap Sample.entry !! "animal" = Some "walrus"
  ∧ logEntryToStringMap Sample.entry !! "number" = Some "1".
Proof.
  assert (Hanimal : logrus.Data Sample.entry !! "animal" = Some (VString "walrus"))
    by reflexivity.
  assert (Hnumber : logrus.Data Sample.entry !! "number" = Some (VInt 1))
    by reflexivity.
  split; [exact Hanimal |]. split; [exact Hnumber |]. split.
  - exact (proj1 (proj2 custom_fields_display) Sample.entry "animal" "walrus" Hanimal).
  - exact (proj1 (proj2 (proj2 custom_fields_display)) Sample.entry "number" (VInt 1)
             Hnumber (λ s H, ltac:(discriminate H))).
Defined.

(** C6.  Under V0 the top-level [@level] of the envelope is the empty
    string, and the [@fields] block carries the severity of the entry
    as a string under [level], with empty strings under [file] and
    [timestamp]. *)
Theorem createV0Message_level_fields (w : World) (entry : logrus.Entry) :
  V0.Level (createV0Message w entry) = ""
  ∧ V0.Fields (createV0Message w entry)
      = Fields.Mk "" (logrus.Level_String (logrus.Level_ entry)) ""
  ∧ json.member "@level" (V0.marshal (createV0Message w entry)) = Some (json.Str "")
  ∧ json.member "@fields" (V0.marshal (createV0Message w entry))
      = Some (json.Object
                [ ("file", json.Str "");
                  ("level", json.Str (logrus.Level_String (logrus.Level_ entry)));
                  ("timestamp", json.Str "") ]).
Proof.
  rewrite createV0Message_fields. repeat split; reflexivity.
Qed.

(** The V0 envelope of the sample entry, member by member. *)
Example V0_sample_envelope :
  json_Marshal (MsgV0 (createV0Message Sample.world_up Sample.entry))
    = Ok (json.Object
            [ ("@timestamp", json.Str "2017-03-09T04:05:06.12Z");
              ("@source_host", json.Str "box");
              ("@message", json.Str "and with fields");
              ("@level", json.Str "");
              ("@fields",
               json.Object
                 [ ("file", json.Str ""); ("level", json.Str "info");
                   ("timestamp", json.Str "") ]);
              ("@custom_fields",
               json.Object
                 [ ("animal", json.Str "walrus"); ("number", json.Str "1");
                   ("size", json.Str "10") ]) ]).
Proof. vm_compute. reflexivity. Qed.

(** The V1 envelope of the sample entry has no member [@message]: its
    message travels under [message]. *)
Example V1_sample_message_member :
  json.member "@message" (V1.marshal (createV1Message Sample.world_up Sample.entry)) = None
  ∧ json.member "message" (V1.marshal (createV1Message Sample.world_up Sample.entry))
      = Some (json.Str "and with fields").
Proof. split; reflexivity. Qed.

(** C3 as worded fails on the sample entry: renaming [@source_host] to
    [host] and dropping [@level] does not turn the member names of the
    V0 envelope into those of the V1 envelope. *)
Lemma V1_names_not_V0_but_host_level :
  ¬ (json.names (V1.marshal (createV1Message Sample.world_up Sample.entry))
     = json.names
         (Spec.rename_member "@source_host" "host"
            (Spec.drop_member "@level"
               (V0.marshal (createV0Message Sample.world_up Sample.entry))))).
Proof. intros Hnames. discriminate Hnames. Qed.

(** C3, amended.  The V1 envelope is the V0 envelope with the
    source-host member named [host] instead of [@source_host], the
    message member named [message] instead of [@message], and no
    top-level [@level]; every other member keeps its name and its
    value.  [@type] is a field of the struct that is never set, so it
    is not among the members. *)
Theorem V1_envelope_from_V0 (w : World) (entry : logrus.Entry) :
  V1.marshal (createV1Message w entry)
    = Spec.rename_member "@message" "message"
        (Spec.rename_member "@source_host" "host"
           (Spec.drop_member "@level" (V0.marshal (createV0Message w entry))))
  ∧ json.names (V1.marshal (createV1Message w entry))
      = ["@timestamp"; "host"; "message"; "@fields"; "@custom_fields"]
  ∧ json.names (V0.marshal (createV0Message w entry))
      = ["@timestamp"; "@source_host"; "@message"; "@level"; "@fields"; "@custom_fields"]
  ∧ V1.Type_ (createV1Message w entry) = ""
  ∧ json.member "@type" (V1.marshal (createV1Message w entry)) = None.
Proof.
  rewrite createV0Message_fields, createV1Message_fields.
  repeat split; reflexivity.
Qed.

(** ** Format selection and processing *)

Section Processing.

(** A format that is neither ["v0"] nor ["v1"] leaves [msg] nil, and
    the payload pushed is JSON [null]. *)
Lemma processEntry_other_format (hook : RedisHook) (entry : logrus.Entry) (w : World) :
  LogstashFormat hook ≠ "v0" → LogstashFormat hook ≠ "v1" →
  processEntry hook entry w = Spec.deliver hook json.Null w.
Proof.
  intros Hv0 Hv1. unfold processEntry, Spec.deliver.
  rewrite !decide_False by assumption. reflexivity.
Qed.

Lemma processEntry_v0 (hook : RedisHook) (entry : logrus.Entry) (w : World) :
  LogstashFormat hook = "v0" →
  processEntry hook entry w = Spec.deliver hook (V0.marshal (createV0Message w entry)) w.
Proof.
  intros Hv0. unfold processEntry, Spec.deliver.
  rewrite decide_True by assumption. reflexivity.
Qed.

Lemma processEntry_v1 (hook : RedisHook) (entry : logrus.Entry) (w : World) :
  LogstashFormat hook = "v1" →
  processEntry hook entry w = Spec.deliver hook (V1.marshal (createV1Message w entry)) w.
Proof.
  intros Hv1. unfold processEntry, Spec.deliver.
  rewrite decide_False by (rewrite Hv1; discriminate).
  rewrite decide_True by assumption. reflexivity.
Qed.

(** The format [NewHook] stores: the argument itself when it lowers
    to ["v0"] or ["v1"], else ["v0"]. *)
Lemma NewHook_stored_format host port key format level async bufferSize w w' hook :
  NewHook host port key format level async bufferSize w = (w', Return (Some hook, None)) →
  LogstashFormat hook =
    if decide (strings.ToLower format ≠ "v0" ∧ strings.ToLower format ≠ "v1")
    then "v0" else format.
Proof.
  unfold NewHook.
  destruct (redis.Do _ _ _) as [n [[] | err]]; [| discriminate].
  destruct async.
  - destruct (golang.make_chan _ bufferSize) as [queue | msg]; [| discriminate].
    intros [= _ <-]. reflexivity.
  - intros [= _ <-]. reflexivity.
Qed.

End Processing.

(** C1, at a failing input.  Built with format ["V1"], the hook keeps
    the string ["V1"]; processing the sample entry then pushes JSON
    [null] onto the list, where the hook built with ["v1"] pushes the V1
    envelope. *)
Theorem NewHook_V1_mixed_case_pushes_null :
  ∃ hookU hookL : RedisHook,
    NewHook "localhost" 6379 "my_redis_key" "V1" logrus.DebugLevel false 1000 Sample.world_up
      = (Sample.world_up, Return (Some hookU, None))
    ∧ NewHook "localhost" 6379 "my_redis_key" "v1" logrus.DebugLevel false 1000 Sample.world_up
      = (Sample.world_up, Return (Some hookL, None))
    ∧ LogstashFormat hookU = "V1"
    ∧ LogstashFormat hookL = "v1"
    ∧ Spec.list_at "localhost" 6379 "my_redis_key"
        (fst (processEntry hookU Sample.entry Sample.world_up))
      = [json.Null]
    ∧ Spec.list_at "localhost" 6379 "my_redis_key"
        (fst (processEntry hookL Sample.entry Sample.world_up))
      = [V1.marshal (createV1Message Sample.world_up Sample.entry)]
    ∧ processEntry hookU Sample.entry Sample.world_up
      ≠ processEntry hookL Sample.entry Sample.world_up.
Proof.
  eexists. eexists.
  split; [reflexivity |]. split; [reflexivity |].
  split; [reflexivity |]. split; [reflexivity |].
  split; [reflexivity |]. split; [reflexivity |].
  intros Hsame. apply (f_equal (λ r, Spec.list_at "localhost" 6379 "my_redis_key" (fst r))) in Hsame.
  vm_compute in Hsame. discriminate Hsame.
Qed.

(** C9.  A format string that lowers to neither ["v0"] nor ["v1"]
    builds the very hook that ["v0"] builds: the stored format is
    ["v0"], and processing an entry delivers its V0 envelope. *)
Theorem NewHook_unrecognized_format
    (host : string) (port : Z) (key format : string) (level : logrus.Level)
    (async : bool) (bufferSize : Z) (w : World) :
  strings.ToLower format ≠ "v0" →
  strings.ToLower format ≠ "v1" →
  NewHook host port key format level async bufferSize w
    = NewHook host port key "v0" level async bufferSize w
  ∧ ∀ (w' : World) (hook : RedisHook),
      NewHook host port key format level async bufferSize w = (w', Return (Some hook, None)) →
      LogstashFormat hook = "v0"
      ∧ ∀ (entry : logrus.Entry) (w2 : World),
          processEntry hook entry w2
            = Spec.deliver hook (V0.marshal (createV0Message w2 entry)) w2.
Proof.
  intros Hv0 Hv1.
  assert (Hstored : ∀ w' hook,
             NewHook host port key format level async bufferSize w
               = (w', Return (Some hook, None)) →
             LogstashFormat hook = "v0").
  { intros w' hook Hnew. rewrite (NewHook_stored_format _ _ _ _ _ _ _ _ _ _ Hnew).
    by rewrite decide_True. }
  split.
  - unfold NewHook. rewrite decide_True by done. reflexivity.
  - intros w' hook Hnew. split; [by eapply Hstored |].
    intros entry w2. apply processEntry_v0. by eapply Hstored.
Qed.

Lemma NewHook_unrecognized_format_bogus :
  strings.ToLower "bogus" ≠ "v0" ∧ strings.ToLower "bogus" ≠ "v1"
  ∧ NewHook "localhost" 6379 "my_redis_key" "bogus" logrus.DebugLevel false 1000 Sample.world_up
    = NewHook "localhost" 6379 "my_redis_key" "v0" logrus.DebugLevel false 1000 Sample.world_up
  ∧ NewHook "localhost" 6379 "my_redis_key" "bogus" logrus.DebugLevel false 1000 Sample.world_up
    = (Sample.world_up, Return (Some (Sample.hook "v0" logrus.DebugLevel false None), None))
  ∧ LogstashFormat (Sample.hook "v0" logrus.DebugLevel false None) = "v0"
  ∧ processEntry (Sample.hook "v0" logrus.DebugLevel false None) Sample.entry Sample.world_up
    = Spec.deliver (Sample.hook "v0" logrus.DebugLevel false None)
        (V0.marshal (createV0Message Sample.world_up Sample.entry)) Sample.world_up.
Proof.
  assert (Hv0 : strings.ToLower "bogus" ≠ "v0") by discriminate.
  assert (Hv1 : strings.ToLower "bogus" ≠ "v1") by discriminate.
  assert (Hnew : NewHook "localhost" 6379 "my_redis_key" "bogus" logrus.DebugLevel false 1000
                   Sample.world_up
                 = (Sample.world_up,
                    Return (Some (Sample.hook "v0" logrus.DebugLevel false None), None)))
    by reflexivity.
  pose proof (NewHook_unrecognized_format "localhost" 6379 "my_redis_key" "bogus"
                logrus.DebugLevel false 1000 Sample.world_up Hv0 Hv1) as [Hsame Hhook].
  destruct (Hhook _ _ Hnew) as [Hformat Hprocess].
  split; [exact Hv0 |]. split; [exact Hv1 |]. split; [exact Hsame |].
  split; [exact Hnew |]. split; [exact Hformat |].
  exact (Hprocess Sample.entry Sample.world_up).
Defined.

(** ** Construction *)

(** C8 as worded fails: with the server answering the [PING], an
    async hook asked for with capacity -1 is not returned. *)
Lemma NewHook_ping_ok_no_hook :
  ¬ (Spec.ping_err "localhost" 6379 Sample.world_up = None →
     ∃ (w' : World) (hook : RedisHook),
       NewHook "localhost" 6379 "my_redis_key" "v0" logrus.DebugLevel true (-1) Sample.world_up
         = (w', Return (Some hook, None))).
Proof.
  intros Hclaim. destruct (Hclaim eq_refl) as (w' & hook & Hnew). discriminate Hnew.
Qed.

(** C8, amended.  When the [PING] of the construction-time health
    check fails, [NewHook] returns no hook and the error "unable to
    connect to REDIS: ..." that wraps the cause, whatever the other
    arguments.  When it succeeds, [NewHook] returns a hook and no
    error, except for an async hook whose queue capacity [make]
    rejects (negative, or past the allocation limit): there it
    panics. *)
Theorem NewHook_health_check
    (host : string) (port : Z) (key format : string) (level : logrus.Level)
    (async : bool) (bufferSize : Z) (w : World) :
  match Spec.ping_err host port w with
  | Some err =>
      NewHook host port key format level async bufferSize w
        = (w, Return (None, Some ("unable to connect to REDIS: " +:+ err)))
  | None =>
      if async && golang.makechan_rejects golang.PtrSize bufferSize
      then NewHook host port key format level async bufferSize w
             = (w, Panic "makechan: size out of range")
      else ∃ hook : RedisHook,
             NewHook host port key format level async bufferSize w
               = (w, Return (Some hook, None))
             ∧ RedisHost hook = host ∧ RedisKey hook = key
             ∧ Level hook = level ∧ Async hook = async
  end.
Proof.
  unfold Spec.ping_err, NewHook, redis.Do, redis.Get, newRedisConnectionPool.
  simpl. destruct (redis.reply_err (net w) _ redis.PING) as [err |].
  - by destruct w.
  - destruct async; simpl.
    + unfold golang.make_chan.
      destruct (golang.makechan_rejects golang.PtrSize bufferSize).
      * by destruct w.
      * eexists. split; [by destruct w |]. done.
    + eexists. split; [by destruct w |]. done.
Qed.

Lemma NewHook_health_check_down_and_up :
  NewHook "localhost" 6379 "my_redis_key" "v0" logrus.DebugLevel true (-1) Sample.world_down
    = (Sample.world_down,
       Return (None, Some "unable to connect to REDIS: dial tcp: connection refused"))
  ∧ NewHook "localhost" 6379 "my_redis_key" "v0" logrus.DebugLevel true (2 ^ 45) Sample.world_up
    = (Sample.world_up, Panic "makechan: size out of range")
  ∧ ∃ hook : RedisHook,
      NewHook "localhost" 6379 "my_redis_key" "v0" logrus.DebugLevel true 1000 Sample.world_up
        = (Sample.world_up, Return (Some hook, None))
      ∧ RedisHost hook = "localhost" ∧ RedisKey hook = "my_redis_key"
      ∧ Level hook = logrus.DebugLevel ∧ Async hook = true.
Proof.
  split; [| split].
  - exact (NewHook_health_check "localhost" 6379 "my_redis_key" "v0" logrus.DebugLevel
             true (-1) Sample.world_down).
  - exact (NewHook_health_check "localhost" 6379 "my_redis_key" "v0" logrus.DebugLevel
             true (2 ^ 45) Sample.world_up).
  - exact (NewHook_health_check "localhost" 6379 "my_redis_key" "v0" logrus.DebugLevel
             true 1000 Sample.world_up).
Defined.

(** A negative queue capacity makes the [make] of the queue panic, after
    the health check has passed. *)
Example NewHook_negative_capacity :
  NewHook "localhost" 6379 "my_redis_key" "v0" logrus.DebugLevel true (-1) Sample.world_up
    = (Sample.world_up, Panic "makechan: size out of range").
Proof. reflexivity. Qed.

(** ** Dispatch *)

(** C4.  In async mode [Fire] returns nil for every entry and every
    state of the queue.  In particular, with the queue at capacity the
    entry is dropped: the hook and its queue stay as they are, one
    diagnostic line is printed, and the result is still nil. *)
Theorem Fire_async_never_fails (hook : RedisHook) (entry : logrus.Entry) (w : World) :
  Async hook = true →
  snd (Fire hook entry w) = None
  ∧ (Spec.queue_full hook →
     Fire hook entry w
       = (hook, Println "Buffer of redis hook's channel is full, log entry discarded" w, None)).
Proof.
  intros Hasync. unfold Fire. rewrite Hasync. split.
  - by destruct (golang.try_send (EntryQueue hook) entry).
  - intros (ch & Hqueue & Hrecv & Hfull). rewrite Hqueue. unfold golang.try_send.
    destruct (golang.chan_recv ch) eqn:Hr; try done;
      by rewrite decide_False by lia.
Qed.

Lemma Fire_async_full_queue_drops :
  Async (Sample.hook "v0" logrus.DebugLevel true
           (Some (golang.MkChan 1 [Sample.entry] golang.Away))) = true
  ∧ Spec.queue_full (Sample.hook "v0" logrus.DebugLevel true
                       (Some (golang.MkChan 1 [Sample.entry] golang.Away)))
  ∧ Fire (Sample.hook "v0" logrus.DebugLevel true
            (Some (golang.MkChan 1 [Sample.entry] golang.Away)))
         Sample.entry Sample.world_down
    = (Sample.hook "v0" logrus.DebugLevel true
         (Some (golang.MkChan 1 [Sample.entry] golang.Away)),
       Println "Buffer of redis hook's channel is full, log entry discarded" Sample.world_down,
       None).
Proof.
  assert (Hfull : Spec.queue_full
                    (Sample.hook "v0" logrus.DebugLevel true
                       (Some (golang.MkChan 1 [Sample.entry] golang.Away)))).
  { eexists. split; [reflexivity |]. split; [discriminate | simpl; lia]. }
  split; [reflexivity |]. split; [exact Hfull |].
  exact (proj2 (Fire_async_never_fails
                  (Sample.hook "v0" logrus.DebugLevel true
                     (Some (golang.MkChan 1 [Sample.entry] golang.Away)))
                  Sample.entry Sample.world_down eq_refl) Hfull).
Defined.

(** With room in the queue the entry is appended and nothing is sent to
    Redis; with the queue at capacity it is dropped. *)
Example Fire_async_sample :
  Fire (Sample.hook "v0" logrus.DebugLevel true (Some (golang.MkChan 1 [] golang.Away)))
       Sample.entry Sample.world_up
    = (Sample.hook "v0" logrus.DebugLevel true
         (Some (golang.MkChan 1 [Sample.entry] golang.Away)),
       Sample.world_up, None)
  ∧ stdout (snd (fst (Fire (Sample.hook "v0" logrus.DebugLevel true
                              (Some (golang.MkChan 1 [Sample.entry] golang.Away)))
                           Sample.entry Sample.world_up)))
    = ["Buffer of redis hook's channel is full, log entry discarded"].
Proof. split; reflexivity. Qed.

(** In sync mode the error of the push comes back to the caller. *)
Example Fire_sync_store_down :
  snd (Fire (Sample.hook "v0" logrus.DebugLevel false None) Sample.entry Sample.world_down)
    = Some "error sending message to REDIS: dial tcp: connection refused".
Proof. reflexivity. Qed.

(** An entry queued by [Fire] reaches Redis on the worker's next turn,
    as its V0 envelope; the worker then finds the queue empty. *)
Example Fire_then_worker_turn :
  let hook := Sample.hook "v0" logrus.DebugLevel true (Some (golang.MkChan 1 [] golang.Away)) in
  let '(hook1, w1, _) := Fire hook Sample.entry Sample.world_up in
  let '(hook2, w2) := asyncProcessing_turn hook1 w1 in
  Spec.list_at "localhost" 6379 "my_redis_key" w1 = []
  ∧ Spec.list_at "localhost" 6379 "my_redis_key" w2
    = [V0.marshal (createV0Message Sample.world_up Sample.entry)]
  ∧ EntryQueue hook2 = Some (golang.MkChan 1 [] golang.Away).
Proof. repeat split; reflexivity. Qed.

(** ** Beyond the claims: delivery *)

Section Delivery.

Lemma set_net_same (w : World) : set_net w (net w) = w.
Proof. by destruct w. Qed.

(** [processEntry] in one equation: the payload of the stored format,
    handed to the delivery sink. *)
Lemma processEntry_deliver (hook : RedisHook) (entry : logrus.Entry) (w : World) :
  processEntry hook entry w = Spec.deliver hook (payload hook entry w) w.
Proof.
  unfold processEntry, payload, Spec.deliver.
  repeat case_decide; reflexivity.
Qed.

Lemma processEntry_set_EntryQueue hook q (entry : logrus.Entry) (w : World) :
  processEntry (set_EntryQueue hook q) entry w = processEntry hook entry w.
Proof. reflexivity. Qed.

End Delivery.

(** X1.  [processEntry] returns an error exactly when the [RPUSH] ends
    in one; the error is "error sending message to REDIS: " followed by
    the cause, never the "error creating message" one, and the lists,
    the standard output and the host name are then what they were. *)
Theorem processEntry_error (hook : RedisHook) (entry : logrus.Entry) (w : World) :
  snd (processEntry hook entry w)
    = (λ cause, "error sending message to REDIS: " +:+ cause) <$> push_err hook entry w
  ∧ (is_Some (push_err hook entry w) → fst (processEntry hook entry w) = w).
Proof.
  rewrite processEntry_deliver. unfold Spec.deliver, push_err, push_command, redis.Do, redis.Get.
  simpl. destruct (redis.reply_err (net w) _ _) as [cause |]; simpl.
  - split; [reflexivity |]. intros _. apply set_net_same.
  - split; [reflexivity |]. by intros [cause Hcause].
Qed.

Lemma processEntry_error_sample :
  is_Some (push_err (Sample.hook "v0" logrus.DebugLevel false None)
             Sample.entry Sample.world_down)
  ∧ fst (processEntry (Sample.hook "v0" logrus.DebugLevel false None)
           Sample.entry Sample.world_down) = Sample.world_down.
Proof.
  assert (Hdown : is_Some (push_err (Sample.hook "v0" logrus.DebugLevel false None)
                             Sample.entry Sample.world_down)).
  { eexists. reflexivity. }
  split; [exact Hdown |].
  exact (proj2 (processEntry_error (Sample.hook "v0" logrus.DebugLevel false None)
                  Sample.entry Sample.world_down) Hdown).
Defined.

(** X2.  When the [RPUSH] goes through, [processEntry] returns nil and
    the payload is appended as one element at the end of the list under
    the hook's key; every other list, the answers of the servers, the
    host name and the standard output stay as they were. *)
Theorem processEntry_success (hook : RedisHook) (entry : logrus.Entry) (w : World) :
  push_err hook entry w = None →
  ∃ w' : World,
    processEntry hook entry w = (w', None)
    ∧ hook_list hook w' = hook_list hook w ++ [payload hook entry w]
    ∧ (∀ at_key,
         at_key ≠ (redis.Dial_address (RedisPool hook), RedisKey hook) →
         redis.lists (net w') !! at_key = redis.lists (net w) !! at_key)
    ∧ redis.reply_err (net w') = redis.reply_err (net w)
    ∧ os_Hostname w' = os_Hostname w
    ∧ stdout w' = stdout w.
Proof.
  intros Hpush. rewrite processEntry_deliver.
  unfold Spec.deliver, redis.Do, redis.Get. simpl.
  unfold push_err, push_command in Hpush. rewrite Hpush.
  eexists. split; [reflexivity |]. unfold hook_list. simpl.
  split; [by rewrite lookup_insert_eq |].
  split; [| done].
  intros at_key Hother. by rewrite lookup_insert_ne.
Qed.

Lemma processEntry_success_sample :
  push_err (Sample.hook "v0" logrus.DebugLevel false None) Sample.entry Sample.world_up = None
  ∧ ∃ w' : World,
      processEntry (Sample.hook "v0" logrus.DebugLevel false None) Sample.entry Sample.world_up
        = (w', None)
      ∧ hook_list (Sample.hook "v0" logrus.DebugLevel false None) w'
        = [V0.marshal (createV0Message Sample.world_up Sample.entry)].
Proof.
  split; [reflexivity |].
  destruct (processEntry_success (Sample.hook "v0" logrus.DebugLevel false None)
              Sample.entry Sample.world_up eq_refl) as (w' & Hrun & Hlist & _).
  exists w'. split; [exact Hrun | exact Hlist].
Defined.

(** X3.  In sync mode, when the [RPUSH] fails [Fire] hands the send
    error back to its caller and leaves hook and world untouched. *)
Theorem Fire_sync_send_failed
    (hook : RedisHook) (entry : logrus.Entry) (w : World) (cause : error) :
  Async hook = false →
  push_err hook entry w = Some cause →
  Fire hook entry w = (hook, w, Some ("error sending message to REDIS: " +:+ cause)).
Proof.
  intros Hsync Hcause. unfold Fire. rewrite Hsync.
  rewrite processEntry_deliver. unfold Spec.deliver, redis.Do, redis.Get. simpl.
  unfold push_err, push_command in Hcause. rewrite Hcause.
  by rewrite set_net_same.
Qed.

Lemma Fire_sync_send_failed_sample :
  Async (Sample.hook "v1" logrus.DebugLevel false None) = false
  ∧ Fire (Sample.hook "v1" logrus.DebugLevel false None) Sample.entry Sample.world_down
    = (Sample.hook "v1" logrus.DebugLevel false None, Sample.world_down,
       Some "error sending message to REDIS: dial tcp: connection refused").
Proof.
  split; [reflexivity |].
  exact (Fire_sync_send_failed (Sample.hook "v1" logrus.DebugLevel false None)
           Sample.entry Sample.world_down "dial tcp: connection refused" eq_refl eq_refl).
Defined.

(** ** Beyond the claims: the queue and the worker *)

Section QueueFacts.

Context {A : Type}.
Implicit Types (ch : golang.Chan A) (a : A).

(** A send is taken exactly while there is room; a taken value goes
    behind the pending ones and uses up one unit of room. *)
Lemma try_send_taken ch a :
  Queue.bounded ch → (0 < Queue.room ch)%nat →
  ∃ ch', golang.try_send (Some ch) a = Some ch'
         ∧ Queue.pending ch' = Queue.pending ch ++ [a]
         ∧ S (Queue.room ch') = Queue.room ch
         ∧ golang.chan_cap ch' = golang.chan_cap ch
         ∧ Queue.bounded ch'.
Proof.
  destruct ch as [cap buf r]. unfold Queue.bounded, Queue.room, Queue.pending, golang.try_send.
  simpl. intros [Hlen Hparked] Hroom. destruct r as [| | handed]; simpl in *.
  - rewrite decide_True by lia. eexists. split; [reflexivity |]. simpl.
    rewrite length_app. simpl. repeat split; try done; lia.
  - rewrite (Hparked eq_refl) in *. eexists. split; [reflexivity |]. simpl.
    repeat split; try done; simpl in *; lia.
  - rewrite decide_True by lia. eexists. split; [reflexivity |]. simpl.
    rewrite length_app. simpl. repeat split; try done; lia.
Qed.

Lemma try_send_refused ch a :
  Queue.room ch = 0%nat → golang.try_send (Some ch) a = None.
Proof.
  destruct ch as [cap buf r]. unfold Queue.room, golang.try_send. simpl.
  intros Hroom. destruct r; try discriminate; by rewrite decide_False by lia.
Qed.

(** The receiver takes the oldest pending value, or parks when there
    is none. *)
Lemma recv_oldest ch a rest :
  Queue.bounded ch → Queue.pending ch = a :: rest →
  ∃ ch', golang.recv ch = (Some a, ch')
         ∧ Queue.pending ch' = rest
         ∧ golang.chan_cap ch' = golang.chan_cap ch
         ∧ Queue.bounded ch'.
Proof.
  destruct ch as [cap buf r]. unfold Queue.bounded, Queue.pending, golang.recv. simpl.
  intros [Hlen Hparked] Hpending. destruct r as [| | handed]; simpl in *.
  - subst buf. eexists. split; [reflexivity |]. simpl in *. repeat split; try done; lia.
  - by rewrite (Hparked eq_refl) in Hpending.
  - injection Hpending as -> ->. eexists. split; [reflexivity |]. by repeat split.
Qed.

Lemma recv_parks ch :
  Queue.pending ch = [] →
  golang.recv ch = (None, golang.MkChan (golang.chan_cap ch) [] golang.Parked).
Proof.
  destruct ch as [cap buf r]. unfold Queue.pending, golang.recv. simpl.
  destruct r; intros Hpending; try discriminate; by subst buf.
Qed.

End QueueFacts.

Section HookRuns.

Implicit Types (hook : RedisHook) (w : World) (entry : logrus.Entry).

Lemma set_EntryQueue_same hook : set_EntryQueue hook (EntryQueue hook) = hook.
Proof. by destruct hook. Qed.

Lemma set_EntryQueue_twice hook q q' :
  set_EntryQueue (set_EntryQueue hook q) q' = set_EntryQueue hook q'.
Proof. reflexivity. Qed.

(** [Fire] in async mode, by the room left in the queue. *)
Lemma Fire_async_taken hook ch entry w :
  Async hook = true → EntryQueue hook = Some ch →
  Queue.bounded ch → (0 < Queue.room ch)%nat →
  ∃ ch', Fire hook entry w = (set_EntryQueue hook (Some ch'), w, None)
         ∧ Queue.pending ch' = Queue.pending ch ++ [entry]
         ∧ S (Queue.room ch') = Queue.room ch
         ∧ golang.chan_cap ch' = golang.chan_cap ch
         ∧ Queue.bounded ch'.
Proof.
  intros Hasync Hqueue Hbounded Hroom.
  destruct (try_send_taken ch entry Hbounded Hroom) as (ch' & Hsend & Hrest).
  exists ch'. split; [| exact Hrest].
  unfold Fire. by rewrite Hasync, Hqueue, Hsend.
Qed.

Lemma Fire_async_refused hook ch entry w :
  Async hook = true → EntryQueue hook = Some ch → Queue.room ch = 0%nat →
  Fire hook entry w = (hook, Println discarded w, None).
Proof.
  intros Hasync Hqueue Hroom. unfold Fire.
  by rewrite Hasync, Hqueue, (try_send_refused ch entry Hroom).
Qed.

(** One turn of the worker, by what is pending. *)
Lemma asyncProcessing_turn_oldest hook ch entry rest w :
  EntryQueue hook = Some ch → Queue.bounded ch → Queue.pending ch = entry :: rest →
  ∃ ch', asyncProcessing_turn hook w
           = (set_EntryQueue hook (Some ch'), fst (processEntry hook entry w))
         ∧ Queue.pending ch' = rest
         ∧ golang.chan_cap ch' = golang.chan_cap ch
         ∧ Queue.bounded ch'.
Proof.
  intros Hqueue Hbounded Hpending.
  destruct (recv_oldest ch entry rest Hbounded Hpending) as (ch' & Hrecv & Hrest).
  exists ch'. split; [| exact Hrest].
  unfold asyncProcessing_turn. by rewrite Hqueue, Hrecv.
Qed.

Lemma asyncProcessing_turn_idle hook ch w :
  EntryQueue hook = Some ch → Queue.pending ch = [] →
  asyncProcessing_turn hook w
    = (set_EntryQueue hook (Some (golang.MkChan (golang.chan_cap ch) [] golang.Parked)), w).
Proof.
  intros Hqueue Hpending. unfold asyncProcessing_turn.
  by rewrite Hqueue, (recv_parks ch Hpending).
Qed.

End HookRuns.

(** X4.  Entries fired at an async hook faster than the worker takes
    them: as many as there is room for are queued, in order, behind
    those already pending; each of the others is dropped with one
    diagnostic line.  The producers never touch the servers. *)
Theorem Fire_each_backpressure
    (hook : RedisHook) (ch : golang.Chan logrus.Entry) (entries : list logrus.Entry)
    (w : World) :
  Async hook = true → EntryQueue hook = Some ch → Queue.bounded ch →
  ∃ ch' : golang.Chan logrus.Entry,
    Fire_each hook entries w
      = (set_EntryQueue hook (Some ch'),
         MkWorld (net w) (os_Hostname w)
           (stdout w ++ replicate (List.length entries - Queue.room ch) discarded))
    ∧ Queue.pending ch' = Queue.pending ch ++ take (Queue.room ch) entries
    ∧ Queue.room ch' = (Queue.room ch - List.length entries)%nat
    ∧ golang.chan_cap ch' = golang.chan_cap ch
    ∧ Queue.bounded ch'.
Proof.
  revert hook ch w. induction entries as [| entry rest IH]; intros hook ch w Hasync Hqueue Hbounded.
  - exists ch. simpl.
    rewrite <- Hqueue, set_EntryQueue_same, take_nil, !app_nil_r, Nat.sub_0_r.
    destruct w. do 4 (split; [reflexivity |]). exact Hbounded.
  - simpl. destruct (Queue.room ch) as [| r] eqn:Hroom.
    + rewrite (Fire_async_refused hook ch entry w Hasync Hqueue Hroom).
      destruct (IH hook ch (Println discarded w) Hasync Hqueue Hbounded)
        as (ch' & Hrun & Hpending & Hroom' & Hcap & Hbounded').
      exists ch'. rewrite Hrun, Hpending, Hroom', Hroom. simpl.
      rewrite Nat.sub_0_r, <- app_assoc. do 3 (split; [reflexivity |]). by split.
    + destruct (Fire_async_taken hook ch entry w Hasync Hqueue Hbounded)
        as (ch1 & Hfire & Hpending1 & Hroom1 & Hcap1 & Hbounded1); [lia |].
      rewrite Hfire.
      destruct (IH (set_EntryQueue hook (Some ch1)) ch1 w Hasync eq_refl Hbounded1)
        as (ch' & Hrun & Hpending & Hroom' & Hcap & Hbounded').
      assert (Hr : Queue.room ch1 = r) by lia.
      exists ch'. rewrite Hrun, Hpending, Hpending1, Hroom', Hr, <- app_assoc, Hcap. simpl.
      do 3 (split; [reflexivity |]). by split.
Qed.

Lemma Fire_each_backpressure_sample :
  Queue.bounded (golang.MkChan 2 [] golang.Away : golang.Chan logrus.Entry)
  ∧ ∃ ch' : golang.Chan logrus.Entry,
      Fire_each (Sample.hook "v0" logrus.DebugLevel true (Some (golang.MkChan 2 [] golang.Away)))
                [Sample.entry; Sample.entry; Sample.entry] Sample.world_up
        = (set_EntryQueue
             (Sample.hook "v0" logrus.DebugLevel true (Some (golang.MkChan 2 [] golang.Away)))
             (Some ch'),
           MkWorld (net Sample.world_up) (os_Hostname Sample.world_up) [discarded])
      ∧ Queue.pending ch' = [Sample.entry; Sample.entry].
Proof.
  assert (Hbounded : Queue.bounded (golang.MkChan 2 [] golang.Away : golang.Chan logrus.Entry)).
  { split; [simpl; lia | discriminate]. }
  split; [exact Hbounded |].
  destruct (Fire_each_backpressure
              (Sample.hook "v0" logrus.DebugLevel true (Some (golang.MkChan 2 [] golang.Away)))
              (golang.MkChan 2 [] golang.Away)
              [Sample.entry; Sample.entry; Sample.entry] Sample.world_up
              eq_refl eq_refl Hbounded) as (ch' & Hrun & Hpending & _).
  exists ch'. split; [exact Hrun | exact Hpending].
Defined.

(** X5.  A delivery that fails in the worker is lost: the turn takes
    the oldest entry off the queue and does not put it back, the error
    of [processEntry] is dropped, and when the [RPUSH] ends in an error
    no list has changed and nothing is printed. *)
Theorem asyncProcessing_turn_failure_lost
    (hook : RedisHook) (ch : golang.Chan logrus.Entry) (entry : logrus.Entry)
    (rest : list logrus.Entry) (w : World) :
  EntryQueue hook = Some ch → Queue.bounded ch → Queue.pending ch = entry :: rest →
  is_Some (push_err hook entry w) →
  ∃ ch' : golang.Chan logrus.Entry,
    asyncProcessing_turn hook w = (set_EntryQueue hook (Some ch'), w)
    ∧ Queue.pending ch' = rest.
Proof.
  intros Hqueue Hbounded Hpending [cause Hcause].
  destruct (asyncProcessing_turn_oldest hook ch entry rest w Hqueue Hbounded Hpending)
    as (ch' & Hturn & Hrest & _).
  exists ch'. split; [| exact Hrest]. rewrite Hturn. f_equal.
  rewrite processEntry_deliver. unfold Spec.deliver, redis.Do, redis.Get. simpl.
  unfold push_err, push_command in Hcause. rewrite Hcause. apply set_net_same.
Qed.

Lemma asyncProcessing_turn_failure_lost_sample :
  Queue.bounded (golang.MkChan 1 [Sample.entry] golang.Away)
  ∧ is_Some (push_err (Sample.hook "v0" logrus.DebugLevel true
                         (Some (golang.MkChan 1 [Sample.entry] golang.Away)))
               Sample.entry Sample.world_down)
  ∧ ∃ ch' : golang.Chan logrus.Entry,
      asyncProcessing_turn
        (Sample.hook "v0" logrus.DebugLevel true
           (Some (golang.MkChan 1 [Sample.entry] golang.Away)))
        Sample.world_down
        = (set_EntryQueue
             (Sample.hook "v0" logrus.DebugLevel true
                (Some (golang.MkChan 1 [Sample.entry] golang.Away)))
             (Some ch'),
           Sample.world_down)
      ∧ Queue.pending ch' = [].
Proof.
  assert (Hbounded : Queue.bounded (golang.MkChan 1 [Sample.entry] golang.Away)).
  { split; [simpl; lia | discriminate]. }
  assert (Hdown : is_Some (push_err (Sample.hook "v0" logrus.DebugLevel true
                                       (Some (golang.MkChan 1 [Sample.entry] golang.Away)))
                             Sample.entry Sample.world_down)).
  { eexists. reflexivity. }
  split; [exact Hbounded |]. split; [exact Hdown |].
  exact (asyncProcessing_turn_failure_lost
           (Sample.hook "v0" logrus.DebugLevel true
              (Some (golang.MkChan 1 [Sample.entry] golang.Away)))
           (golang.MkChan 1 [Sample.entry] golang.Away)
           Sample.entry [] Sample.world_down eq_refl Hbounded eq_refl Hdown).
Defined.

Section WorkerRuns.

Implicit Types (hook : RedisHook) (w : World) (ch : golang.Chan logrus.Entry).

(** [n] turns of the worker process the [n] oldest pending entries, in
    the order they were queued, and leave the others pending. *)
Lemma asyncProcessing_turns_oldest n hook ch w :
  EntryQueue hook = Some ch → Queue.bounded ch →
  ∃ ch', asyncProcessing_turns n hook w
           = (set_EntryQueue hook (Some ch'),
              processEntry_each hook (take n (Queue.pending ch)) w)
         ∧ Queue.pending ch' = drop n (Queue.pending ch)
         ∧ golang.chan_cap ch' = golang.chan_cap ch
         ∧ Queue.bounded ch'.
Proof.
  revert hook ch w. induction n as [| n IH]; intros hook ch w Hqueue Hbounded.
  - exists ch. simpl. rewrite <- Hqueue at 1. rewrite set_EntryQueue_same.
    rewrite drop_0. do 3 (split; [reflexivity |]). exact Hbounded.
  - simpl. destruct (Queue.pending ch) as [| entry rest] eqn:Hpending.
    + rewrite (asyncProcessing_turn_idle hook ch w Hqueue Hpending).
      destruct (IH (set_EntryQueue hook (Some (golang.MkChan (golang.chan_cap ch) [] golang.Parked)))
                  (golang.MkChan (golang.chan_cap ch) [] golang.Parked) w eq_refl)
        as (ch' & Hrun & Hrest & Hcap & Hbounded').
      { split; [simpl; lia | done]. }
      exists ch'. rewrite Hrun, Hrest, Hcap. unfold Queue.pending. simpl.
      rewrite take_nil, drop_nil.
      do 3 (split; [reflexivity |]). exact Hbounded'.
    + destruct (asyncProcessing_turn_oldest hook ch entry rest w Hqueue Hbounded Hpending)
        as (ch1 & Hturn & Hrest1 & Hcap1 & Hbounded1).
      rewrite Hturn.
      destruct (IH (set_EntryQueue hook (Some ch1)) ch1 (fst (processEntry hook entry w))
                  eq_refl Hbounded1)
        as (ch' & Hrun & Hrest & Hcap & Hbounded').
      exists ch'. rewrite Hrun, Hrest, Hrest1, Hcap, Hcap1.
      do 3 (split; [reflexivity |]). exact Hbounded'.
Qed.

(** Whatever is fired or whichever turn the worker takes, only the
    queue of the hook changes, and it stays within its capacity. *)
Lemma Fire_keeps_bounded hook ch (entry : logrus.Entry) w :
  EntryQueue hook = Some ch → Queue.bounded ch →
  ∃ ch', fst (fst (Fire hook entry w)) = set_EntryQueue hook (Some ch')
         ∧ golang.chan_cap ch' = golang.chan_cap ch
         ∧ Queue.bounded ch'.
Proof.
  intros Hqueue Hbounded. destruct (Async hook) eqn:Hasync.
  - destruct (Queue.room ch) as [| r] eqn:Hroom.
    + rewrite (Fire_async_refused hook ch entry w Hasync Hqueue Hroom).
      exists ch. simpl. rewrite <- Hqueue at 1. rewrite set_EntryQueue_same.
      split; [reflexivity |]. split; [reflexivity | exact Hbounded].
    + destruct (Fire_async_taken hook ch entry w Hasync Hqueue Hbounded)
        as (ch' & Hfire & _ & _ & Hcap & Hbounded'); [lia |].
      exists ch'. rewrite Hfire. split; [reflexivity |]. split; [exact Hcap | exact Hbounded'].
  - exists ch. unfold Fire. rewrite Hasync.
    destruct (processEntry hook entry w) as [w' err]. simpl.
    rewrite <- Hqueue at 1. rewrite set_EntryQueue_same.
    split; [reflexivity |]. split; [reflexivity | exact Hbounded].
Qed.

Lemma asyncProcessing_turn_keeps_bounded hook ch w :
  EntryQueue hook = Some ch → Queue.bounded ch →
  ∃ ch', fst (asyncProcessing_turn hook w) = set_EntryQueue hook (Some ch')
         ∧ golang.chan_cap ch' = golang.chan_cap ch
         ∧ Queue.bounded ch'.
Proof.
  intros Hqueue Hbounded. destruct (Queue.pending ch) as [| entry rest] eqn:Hpending.
  - rewrite (asyncProcessing_turn_idle hook ch w Hqueue Hpending).
    eexists. split; [reflexivity |]. split; [reflexivity |].
    split; [simpl; lia | done].
  - destruct (asyncProcessing_turn_oldest hook ch entry rest w Hqueue Hbounded Hpending)
      as (ch' & Hturn & _ & Hcap & Hbounded').
    exists ch'. rewrite Hturn. split; [reflexivity |]. split; [exact Hcap | exact Hbounded'].
Qed.

(** Entries fired while there is room for them all are all queued, in
    order, and the world is not touched. *)
Lemma Fire_each_all_taken hook ch (entries : list logrus.Entry) w :
  Async hook = true → EntryQueue hook = Some ch → Queue.bounded ch →
  (List.length entries ≤ Queue.room ch)%nat →
  ∃ ch', Fire_each hook entries w = (set_EntryQueue hook (Some ch'), w)
         ∧ Queue.pending ch' = Queue.pending ch ++ entries
         ∧ Queue.bounded ch'.
Proof.
  revert hook ch. induction entries as [| entry rest IH]; intros hook ch Hasync Hqueue Hbounded Hroom.
  - exists ch. simpl. rewrite <- Hqueue at 1. rewrite set_EntryQueue_same, app_nil_r.
    split; [reflexivity |]. split; [reflexivity | exact Hbounded].
  - simpl in *.
    destruct (Fire_async_taken hook ch entry w Hasync Hqueue Hbounded)
      as (ch1 & Hfire & Hpending1 & Hroom1 & _ & Hbounded1); [lia |].
    rewrite Hfire.
    destruct (IH (set_EntryQueue hook (Some ch1)) ch1 Hasync eq_refl Hbounded1)
      as (ch' & Hrun & Hpending & Hbounded'); [lia |].
    exists ch'. rewrite Hrun, Hpending, Hpending1, <- app_assoc.
    split; [reflexivity |]. split; [reflexivity | exact Hbounded'].
Qed.

End WorkerRuns.

(** X6.  Once the worker has found the queue empty and waits on it, the
    next entry fired is always taken, whatever the capacity (also
    capacity 0), and nothing is printed; the turn itself changes
    nothing in the world. *)
Theorem Fire_after_idle_turn
    (hook : RedisHook) (ch : golang.Chan logrus.Entry) (entry : logrus.Entry) (w : World) :
  Async hook = true → EntryQueue hook = Some ch → Queue.pending ch = [] →
  ∃ (hook1 : RedisHook) (ch2 : golang.Chan logrus.Entry),
    asyncProcessing_turn hook w = (hook1, w)
    ∧ Fire hook1 entry w = (set_EntryQueue hook (Some ch2), w, None)
    ∧ Queue.pending ch2 = [entry].
Proof.
  intros Hasync Hqueue Hpending.
  rewrite (asyncProcessing_turn_idle hook ch w Hqueue Hpending).
  eexists. eexists. split; [reflexivity |].
  unfold Fire. simpl. rewrite Hasync. simpl. split; reflexivity.
Qed.

Lemma Fire_after_idle_turn_unbuffered :
  Queue.pending (golang.MkChan 0 [] golang.Away : golang.Chan logrus.Entry) = []
  ∧ Fire (Sample.hook "v0" logrus.DebugLevel true (Some (golang.MkChan 0 [] golang.Away)))
         Sample.entry Sample.world_up
    = (Sample.hook "v0" logrus.DebugLevel true (Some (golang.MkChan 0 [] golang.Away)),
       Println discarded Sample.world_up, None)
  ∧ ∃ (hook1 : RedisHook) (ch2 : golang.Chan logrus.Entry),
      asyncProcessing_turn
        (Sample.hook "v0" logrus.DebugLevel true (Some (golang.MkChan 0 [] golang.Away)))
        Sample.world_up = (hook1, Sample.world_up)
      ∧ Fire hook1 Sample.entry Sample.world_up
        = (set_EntryQueue
             (Sample.hook "v0" logrus.DebugLevel true (Some (golang.MkChan 0 [] golang.Away)))
             (Some ch2),
           Sample.world_up, None)
      ∧ Queue.pending ch2 = [Sample.entry].
Proof.
  split; [reflexivity |]. split; [reflexivity |].
  exact (Fire_after_idle_turn
           (Sample.hook "v0" logrus.DebugLevel true (Some (golang.MkChan 0 [] golang.Away)))
           (golang.MkChan 0 [] golang.Away) Sample.entry Sample.world_up
           eq_refl eq_refl eq_refl).
Defined.

(** X7.  Entries fired at an async hook whose queue is empty and has
    room for them all are queued without a drop, and as many turns of
    the worker as there are entries then have the effect on the world
    that [processEntry] has when run on the entries one after the
    other, in the order they were fired; the queue is empty again. *)
Theorem async_delivers_in_order
    (hook : RedisHook) (ch : golang.Chan logrus.Entry) (entries : list logrus.Entry)
    (w : World) :
  Async hook = true → EntryQueue hook = Some ch → Queue.bounded ch →
  Queue.pending ch = [] → (List.length entries ≤ Queue.room ch)%nat →
  ∃ hook1 hook2 : RedisHook,
    Fire_each hook entries w = (hook1, w)
    ∧ queued hook1 = entries
    ∧ asyncProcessing_turns (List.length entries) hook1 w
      = (hook2, processEntry_each hook entries w)
    ∧ queued hook2 = [].
Proof.
  intros Hasync Hqueue Hbounded Hpending Hroom.
  destruct (Fire_each_all_taken hook ch entries w Hasync Hqueue Hbounded Hroom)
    as (ch1 & Hfire & Hpending1 & Hbounded1).
  rewrite Hpending in Hpending1. simpl in Hpending1.
  destruct (asyncProcessing_turns_oldest (List.length entries)
              (set_EntryQueue hook (Some ch1)) ch1 w eq_refl Hbounded1)
    as (ch2 & Hturns & Hpending2 & _).
  rewrite Hpending1, firstn_all in Hturns. rewrite Hpending1 in Hpending2.
  rewrite drop_all in Hpending2.
  eexists. eexists. split; [exact Hfire |].
  split; [exact Hpending1 |]. split; [exact Hturns |]. exact Hpending2.
Qed.

Lemma async_delivers_in_order_sample :
  Queue.bounded (golang.MkChan 2 [] golang.Parked : golang.Chan logrus.Entry)
  ∧ ∃ hook2 : RedisHook,
      asyncProcessing_turns 3
        (fst (Fire_each
                (Sample.hook "v0" logrus.DebugLevel true (Some (golang.MkChan 2 [] golang.Parked)))
                [Sample.entry; Sample.entry; Sample.entry] Sample.world_up))
        Sample.world_up
      = (hook2,
         processEntry_each
           (Sample.hook "v0" logrus.DebugLevel true (Some (golang.MkChan 2 [] golang.Parked)))
           [Sample.entry; Sample.entry; Sample.entry] Sample.world_up)
      ∧ queued hook2 = [].
Proof.
  assert (Hbounded : Queue.bounded (golang.MkChan 2 [] golang.Parked : golang.Chan logrus.Entry)).
  { split; [simpl; lia | done]. }
  assert (Hroom : (List.length [Sample.entry; Sample.entry; Sample.entry]
                  ≤ Queue.room (golang.MkChan 2 [] golang.Parked : golang.Chan logrus.Entry))%nat).
  { unfold Queue.room. simpl. lia. }
  split; [exact Hbounded |].
  destruct (async_delivers_in_order
              (Sample.hook "v0" logrus.DebugLevel true (Some (golang.MkChan 2 [] golang.Parked)))
              (golang.MkChan 2 [] golang.Parked)
              [Sample.entry; Sample.entry; Sample.entry] Sample.world_up
              eq_refl eq_refl Hbounded eq_refl Hroom)
    as (hook1 & hook2 & Hfire & _ & Hturns & Hempty).
  exists hook2. rewrite Hfire. simpl. split; [exact Hturns | exact Hempty].
Defined.

(** X8.  Under any schedule of [Fire] calls and worker turns, the hook
    changes in its queue only, the capacity of the queue stays what it
    was, and the buffer never holds more entries than the capacity. *)
Theorem run_keeps_queue_bounded
    (schedule : list action) (hook : RedisHook) (ch : golang.Chan logrus.Entry) (w : World) :
  EntryQueue hook = Some ch → Queue.bounded ch →
  ∃ ch' : golang.Chan logrus.Entry,
    fst (run schedule hook w) = set_EntryQueue hook (Some ch')
    ∧ golang.chan_cap ch' = golang.chan_cap ch
    ∧ (List.length (golang.chan_buf ch') ≤ golang.chan_cap ch)%nat
    ∧ Queue.bounded ch'.
Proof.
  revert hook ch w.
  induction schedule as [| [entry |] rest IH]; intros hook ch w Hqueue Hbounded.
  - exists ch. simpl. rewrite <- Hqueue at 1. rewrite set_EntryQueue_same.
    split; [reflexivity |]. split; [reflexivity |]. split; [apply Hbounded | exact Hbounded].
  - simpl. destruct (Fire_keeps_bounded hook ch entry w Hqueue Hbounded)
      as (ch1 & Hfire & Hcap1 & Hbounded1).
    destruct (Fire hook entry w) as [[hook1 w1] err]. simpl in Hfire. subst hook1.
    destruct (IH (set_EntryQueue hook (Some ch1)) ch1 w1 eq_refl Hbounded1)
      as (ch' & Hrun & Hcap & Hlen & Hbounded').
    exists ch'. rewrite Hrun, <- Hcap1.
    split; [reflexivity |]. split; [exact Hcap |]. split; [exact Hlen | exact Hbounded'].
  - simpl. destruct (asyncProcessing_turn_keeps_bounded hook ch w Hqueue Hbounded)
      as (ch1 & Hturn & Hcap1 & Hbounded1).
    destruct (asyncProcessing_turn hook w) as [hook1 w1]. simpl in Hturn. subst hook1.
    destruct (IH (set_EntryQueue hook (Some ch1)) ch1 w1 eq_refl Hbounded1)
      as (ch' & Hrun & Hcap & Hlen & Hbounded').
    exists ch'. rewrite Hrun, <- Hcap1.
    split; [reflexivity |]. split; [exact Hcap |]. split; [exact Hlen | exact Hbounded'].
Qed.

Lemma run_keeps_queue_bounded_sample :
  Queue.bounded (golang.MkChan 1 [] golang.Away : golang.Chan logrus.Entry)
  ∧ ∃ ch' : golang.Chan logrus.Entry,
      fst (run [Fires Sample.entry; Fires Sample.entry; Turn; Turn; Fires Sample.entry]
             (Sample.hook "v1" logrus.InfoLevel true (Some (golang.MkChan 1 [] golang.Away)))
             Sample.world_up)
        = set_EntryQueue
            (Sample.hook "v1" logrus.InfoLevel true (Some (golang.MkChan 1 [] golang.Away)))
            (Some ch')
      ∧ golang.chan_cap ch' = 1%nat
      ∧ (List.length (golang.chan_buf ch') ≤ 1)%nat.
Proof.
  assert (Hbounded : Queue.bounded (golang.MkChan 1 [] golang.Away : golang.Chan logrus.Entry)).
  { split; [simpl; lia | discriminate]. }
  split; [exact Hbounded |].
  destruct (run_keeps_queue_bounded
              [Fires Sample.entry; Fires Sample.entry; Turn; Turn; Fires Sample.entry]
              (Sample.hook "v1" logrus.InfoLevel true (Some (golang.MkChan 1 [] golang.Away)))
              (golang.MkChan 1 [] golang.Away) Sample.world_up eq_refl Hbounded)
    as (ch' & Hrun & Hcap & Hlen & _).
  exists ch'. split; [exact Hrun |]. split; [exact Hcap | exact Hlen].
Defined.

(** ** Beyond the claims: construction *)

Section Construction.

(** The hook [NewHook] returns, field by field. *)
Lemma NewHook_returns host port key format level async bufferSize w w' hook :
  NewHook host port key format level async bufferSize w = (w', Return (Some hook, None)) →
  w' = w
  ∧ (async = true → (0 ≤ bufferSize)%Z)
  ∧ hook = MkRedisHook (newRedisConnectionPool host port) host key
             (if decide (strings.ToLower format ≠ "v0" ∧ strings.ToLower format ≠ "v1")
              then "v0" else format)
             0 level async
             (if async then Some (golang.MkChan (Z.to_nat bufferSize) [] golang.Away) else None)
             (if async then Some golang.make_chan_unbuffered else None).
Proof.
  unfold NewHook, redis.Do, redis.Get. simpl.
  destruct (redis.reply_err (net w) _ redis.PING) as [err |]; [discriminate |].
  rewrite set_net_same. destruct async.
  - unfold golang.make_chan.
    destruct (golang.makechan_rejects golang.PtrSize bufferSize) eqn:Hrejects; [discriminate |].
    apply orb_false_elim in Hrejects as [Hneg _]. apply Z.ltb_ge in Hneg.
    intros [= <- <-]. by repeat split.
  - intros [= <- <-]. by repeat split.
Qed.

(** The strings that [strings.ToLower] takes to ["v0"] and to ["v1"]. *)
Lemma lower_byte_v c : strings.lower_byte c = "v"%char ↔ c = "v"%char ∨ c = "V"%char.
Proof.
  destruct c as [[] [] [] [] [] [] [] []]; vm_compute;
    (split; [intros H; first [discriminate H | by left | by right]
            | intros [H | H]; first [discriminate H | reflexivity]]).
Qed.

Lemma lower_byte_digit c (d : ascii) :
  d = "0"%char ∨ d = "1"%char → strings.lower_byte c = d ↔ c = d.
Proof.
  intros [-> | ->]; destruct c as [[] [] [] [] [] [] [] []]; vm_compute;
    (split; intros H; first [discriminate H | reflexivity]).
Qed.

Lemma ToLower_v_digit format (d : ascii) :
  d = "0"%char ∨ d = "1"%char →
  strings.ToLower format = String "v" (String d "")
  ↔ format = String "v" (String d "") ∨ format = String "V" (String d "").
Proof.
  intros Hd. destruct format as [| c1 [| c2 [| c3 rest]]]; simpl.
  - split; [discriminate | by intros [H | H]].
  - split; [discriminate | by intros [H | H]].
  - split.
    + intros [= H1 H2]. apply lower_byte_v in H1. apply (lower_byte_digit c2 d Hd) in H2.
      subst c2. destruct H1 as [-> | ->]; [by left | by right].
    + assert (Hdd : strings.lower_byte d = d) by (by apply lower_byte_digit).
      intros [[= -> ->] | [= -> ->]]; by rewrite Hdd.
  - split; [discriminate | by intros [H | H]].
Qed.

End Construction.



(** X10.  The hook [NewHook] returns: its pool dials ["host:port"]
    with at most 3 idle connections and an idle timeout of 240 s; host,
    key, level and mode are the arguments; [RedisPort] is left at 0
    whatever the port; a sync hook has no channels; an async hook
    starts with an empty queue of the capacity asked for and an
    unbuffered [Quit].  The world is as it was before the call. *)
Theorem NewHook_fresh_hook
    (host : string) (port : Z) (key format : string) (level : logrus.Level)
    (async : bool) (bufferSize : Z) (w w' : World) (hook : RedisHook) :
  NewHook host port key format level async bufferSize w = (w', Return (Some hook, None)) →
  w' = w
  ∧ RedisPool hook = redis.MkPool 3 240000000000 (host +:+ ":" +:+ pretty port)
  ∧ RedisHost hook = host ∧ RedisKey hook = key ∧ RedisPort hook = 0%Z
  ∧ Level hook = level ∧ Async hook = async
  ∧ (async = false → EntryQueue hook = None ∧ Quit hook = None)
  ∧ (async = true →
     EntryQueue hook = Some (golang.MkChan (Z.to_nat bufferSize) [] golang.Away)
     ∧ Quit hook = Some (golang.MkChan 0 [] golang.Away)
     ∧ (0 ≤ bufferSize)%Z)
  ∧ queued hook = [].
Proof.
  intros Hnew. apply NewHook_returns in Hnew as (-> & Hcap & ->).
  split; [reflexivity |]. do 6 (split; [reflexivity |]).
  destruct async; simpl.
  - split; [discriminate |]. split; [| reflexivity].
    intros _. split; [reflexivity |]. split; [reflexivity |]. by apply Hcap.
  - split; [done |]. split; [discriminate | reflexivity].
Qed.

Lemma NewHook_fresh_hook_sample :
  NewHook "redis.local" 6380 "logs" "v1" logrus.WarnLevel true 16 Sample.world_up
    = (Sample.world_up,
       Return (Some (MkRedisHook (redis.MkPool 3 240000000000 "redis.local:6380")
                       "redis.local" "logs" "v1" 0 logrus.WarnLevel true
                       (Some (golang.MkChan 16 [] golang.Away))
                       (Some (golang.MkChan 0 [] golang.Away))), None))
  ∧ RedisPort (MkRedisHook (redis.MkPool 3 240000000000 "redis.local:6380")
                 "redis.local" "logs" "v1" 0 logrus.WarnLevel true
                 (Some (golang.MkChan 16 [] golang.Away))
                 (Some (golang.MkChan 0 [] golang.Away))) = 0%Z.
Proof.
  assert (Hnew : NewHook "redis.local" 6380 "logs" "v1" logrus.WarnLevel true 16 Sample.world_up
                 = (Sample.world_up,
                    Return (Some (MkRedisHook (redis.MkPool 3 240000000000 "redis.local:6380")
                                    "redis.local" "logs" "v1" 0 logrus.WarnLevel true
                                    (Some (golang.MkChan 16 [] golang.Away))
                                    (Some (golang.MkChan 0 [] golang.Away))), None)))
    by reflexivity.
  split; [exact Hnew |].
  exact (proj1 (proj2 (proj2 (proj2 (proj2
           (NewHook_fresh_hook _ _ _ _ _ _ _ _ _ _ Hnew)))))).
Defined.

(** X11.  What a hook built by [NewHook] pushes, by the format string
    it was built with: the V1 envelope for exactly ["v1"]; JSON [null]
    for ["V0"] and ["V1"], which pass the case-blind check but are
    stored as given and match no case of the switch; the V0 envelope
    for every other string. *)
Theorem NewHook_payload_by_format
    (host : string) (port : Z) (key format : string) (level : logrus.Level)
    (async : bool) (bufferSize : Z) (w w' : World) (hook : RedisHook) :
  NewHook host port key format level async bufferSize w = (w', Return (Some hook, None)) →
  ∀ (entry : logrus.Entry) (w2 : World),
    processEntry hook entry w2
      = Spec.deliver hook
          (if decide (format = "v1") then V1.marshal (createV1Message w2 entry)
           else if decide (format = "V0" ∨ format = "V1") then json.Null
           else V0.marshal (createV0Message w2 entry))
          w2.
Proof.
  intros Hnew entry w2. apply NewHook_stored_format in Hnew.
  pose proof (ToLower_v_digit format "0" (or_introl eq_refl)) as Hv0.
  pose proof (ToLower_v_digit format "1" (or_intror eq_refl)) as Hv1.
  destruct (decide (format = "v1")) as [-> | Hnot_v1].
  { apply processEntry_v1. by rewrite Hnew. }
  destruct (decide (format = "V0" ∨ format = "V1")) as [Hupper | Hnot_upper].
  - apply processEntry_other_format; rewrite Hnew;
      (rewrite decide_False by (destruct Hupper as [-> | ->]; intros [H0 H1]; by vm_compute in *));
      destruct Hupper as [-> | ->]; discriminate.
  - apply processEntry_v0. rewrite Hnew.
    destruct (decide (strings.ToLower format ≠ "v0" ∧ strings.ToLower format ≠ "v1"))
      as [_ | Hrecognized]; [reflexivity |].
    destruct (decide (strings.ToLower format = "v0")) as [Hlow0 | Hlow0].
    + apply Hv0 in Hlow0 as [-> | ->]; [reflexivity | tauto].
    + destruct (decide (strings.ToLower format = "v1")) as [Hlow1 | Hlow1]; [| tauto].
      apply Hv1 in Hlow1 as [-> | ->]; tauto.
Qed.

Lemma NewHook_payload_by_format_V0 :
  NewHook "localhost" 6379 "my_redis_key" "V0" logrus.DebugLevel false 1000 Sample.world_up
    = (Sample.world_up, Return (Some (Sample.hook "V0" logrus.DebugLevel false None), None))
  ∧ processEntry (Sample.hook "V0" logrus.DebugLevel false None) Sample.entry Sample.world_up
    = Spec.deliver (Sample.hook "V0" logrus.DebugLevel false None) json.Null Sample.world_up.
Proof.
  assert (Hnew : NewHook "localhost" 6379 "my_redis_key" "V0" logrus.DebugLevel false 1000
                   Sample.world_up
                 = (Sample.world_up,
                    Return (Some (Sample.hook "V0" logrus.DebugLevel false None), None)))
    by reflexivity.
  split; [exact Hnew |].
  exact (NewHook_payload_by_format _ _ _ _ _ _ _ _ _ _ Hnew Sample.entry Sample.world_up).
Defined.

(** X12.  Built in sync mode and fired once with the server answering,
    the hook leaves the payload of the entry as the new last element of
    the list under [key] on the server at ["host:port"], and [Fire]
    returns nil. *)
Theorem NewHook_then_Fire_sync
    (host : string) (port : Z) (key format : string) (level : logrus.Level)
    (bufferSize : Z) (w w1 : World) (hook : RedisHook) (entry : logrus.Entry) :
  NewHook host port key format level false bufferSize w = (w1, Return (Some hook, None)) →
  push_err hook entry w1 = None →
  ∃ w2 : World,
    Fire hook entry w1 = (hook, w2, None)
    ∧ Spec.list_at host port key w2 = Spec.list_at host port key w ++ [payload hook entry w].
Proof.
  intros Hnew Hpush. apply NewHook_returns in Hnew as (-> & _ & Hhook).
  unfold Fire. replace (Async hook) with false by (by rewrite Hhook).
  rewrite processEntry_deliver. unfold Spec.deliver, redis.Do, redis.Get.
  cbn [redis.conn_address].
  unfold push_err, push_command in Hpush. rewrite Hpush.
  eexists. split; [reflexivity |].
  unfold Spec.list_at. rewrite Hhook. simpl. by rewrite lookup_insert_eq.
Qed.

Lemma NewHook_then_Fire_sync_sample :
  ∃ w2 : World,
    Fire (Sample.hook "v0" logrus.DebugLevel false None) Sample.entry Sample.world_up
      = (Sample.hook "v0" logrus.DebugLevel false None, w2, None)
    ∧ Spec.list_at "localhost" 6379 "my_redis_key" w2
      = [V0.marshal (createV0Message Sample.world_up Sample.entry)].
Proof.
  exact (NewHook_then_Fire_sync "localhost" 6379 "my_redis_key" "v0" logrus.DebugLevel 1000
           Sample.world_up Sample.world_up (Sample.hook "v0" logrus.DebugLevel false None)
           Sample.entry eq_refl eq_refl).
Defined.

(** ** Beyond the claims: levels and envelopes *)

(** X13.  In logrus's numbering (panic 0 up to debug 5) a level is in
    the list [Levels] returns exactly when it is the panic level, or the
    minimum level is one of the six and the level is not above it; for
    one of the six the list has two entries more than its number. *)
Theorem Levels_numeric (hook : RedisHook) :
  (∀ l : logrus.Level,
     l ∈ Levels hook
     ↔ l = logrus.PanicLevel ∨ ((Level hook ≤ logrus.DebugLevel)%N ∧ (l ≤ Level hook)%N))
  ∧ ((Level hook ≤ logrus.DebugLevel)%N →
     List.length (Levels hook) = (N.to_nat (Level hook) + 2)%nat).
Proof.
  rewrite Levels_cases.
  unfold logrus.DebugLevel, logrus.InfoLevel, logrus.WarnLevel, logrus.ErrorLevel,
    logrus.FatalLevel, logrus.PanicLevel, logrus.zero_Level.
  repeat case_decide;
    (split;
     [ intros l; rewrite ?elem_of_cons, elem_of_nil; lia
     | intros Hle; simpl; lia ]).
Qed.

Lemma Levels_numeric_sample :
  (logrus.ErrorLevel ≤ logrus.DebugLevel)%N
  ∧ List.length (Levels (Sample.hook "v0" logrus.ErrorLevel false None)) = 4%nat.
Proof.
  assert (Hle : (logrus.ErrorLevel ≤ logrus.DebugLevel)%N) by (vm_compute; discriminate).
  split; [exact Hle |].
  exact (proj2 (Levels_numeric (Sample.hook "v0" logrus.ErrorLevel false None)) Hle).
Defined.

(** X14.  The list [Levels] returns names the panic level twice when
    the minimum level is one of the six known ones (the zero value at
    index 0 and the appended [PanicLevel]) and once otherwise; behind
    index 0 no level is repeated. *)
Theorem Levels_panic_twice (hook : RedisHook) :
  List.length (filter (λ l, l = logrus.PanicLevel) (Levels hook))
    = (if decide (Spec.known (Level hook)) then 2 else 1)%nat
  ∧ NoDup (tail (Levels hook)).
Proof.
  destruct (decide (Spec.known (Level hook))) as [Hknown | Hunknown].
  - rewrite Levels_cases. apply known_cases in Hknown.
    destruct Hknown as [-> | [-> | [-> | [-> | [-> | ->]]]]];
      (split; [reflexivity | by apply (bool_decide_unpack _)]).
  - rewrite (Levels_unknown hook Hunknown). split; [reflexivity | apply NoDup_nil_2].
Qed.

Section Envelopes.

(** A member of a marshalled map is the entry of the map. *)
Lemma member_of_pairs (key : string) (l : list (string * string)) :
  json.member key (json.Object (map (λ kv, (fst kv, json.Str (snd kv))) l))
    = json.Str <$> ((list_to_map l : gmap string string) !! key).
Proof.
  unfold json.member. induction l as [| [k v] l IH]; simpl.
  - by rewrite lookup_empty.
  - case_bool_decide as Hkey; simpl.
    + subst k. by rewrite lookup_insert_eq.
    + rewrite lookup_insert_ne by done. exact IH.
Qed.

Lemma sorted_pairs (m : gmap string string) :
  merge_sort json.key_le (map_to_list m) ≡ₚ map_to_list m
  ∧ Sorted json.key_le (merge_sort json.key_le (map_to_list m)).
Proof.
  split; [apply merge_sort_Permutation |].
  apply Sorted_merge_sort. intros a b. apply String.leb_total.
Qed.

(** When every key is well-formed UTF-8 the names are the keys. *)
Lemma names_of_valid_keys (l : list (string * string)) :
  (∀ kv, kv ∈ l → json.utf8 (fst kv) = fst kv) →
  map (λ kv, (json.utf8 (fst kv), json.Str (snd kv))) l
    = map (λ kv, (fst kv, json.Str (snd kv))) l.
Proof.
  intros Hvalid. apply map_ext_in. intros kv Hin.
  by rewrite (Hvalid kv) by (by apply list_elem_of_In).
Qed.

End Envelopes.

(** X15.  The custom fields always travel as a JSON object, never as
    [null].  Under [@custom_fields] both envelopes carry exactly one
    member per field of the entry, in the ascending byte order of the
    field names; a member is named by the field name and holds the
    display form of the field, both as the encoder writes a Go string
    (U+FFFD for every byte that is not well-formed UTF-8).  When the
    field names are well-formed UTF-8, looking a name up in the object
    gives the display form of that field.  An entry without fields
    gives the empty object. *)
Theorem custom_fields_member (w : World) (entry : logrus.Entry) :
  ∃ fields : list (string * string),
    fields ≡ₚ map_to_list (Spec.display <$> logrus.Data entry)
    ∧ Sorted json.key_le fields
    ∧ json.member "@custom_fields" (V0.marshal (createV0Message w entry))
      = Some (json.Object (map (λ kv, (json.utf8 (fst kv), json.Str (snd kv))) fields))
    ∧ json.member "@custom_fields" (V1.marshal (createV1Message w entry))
      = Some (json.Object (map (λ kv, (json.utf8 (fst kv), json.Str (snd kv))) fields))
    ∧ ((∀ key : string, is_Some (logrus.Data entry !! key) → json.utf8 key = key) →
       ∀ key : string,
         json.member key
           (json.Object (map (λ kv, (json.utf8 (fst kv), json.Str (snd kv))) fields))
         = json.Str <$> (Spec.display <$> logrus.Data entry !! key))
    ∧ (logrus.Data entry = ∅ → fields = []).
Proof.
  rewrite createV0Message_fields, createV1Message_fields, logEntryToStringMap_fmap.
  destruct (sorted_pairs (Spec.display <$> logrus.Data entry)) as [Hperm Hsorted].
  exists (merge_sort json.key_le (map_to_list (Spec.display <$> logrus.Data entry))).
  split; [exact Hperm |]. split; [exact Hsorted |].
  split; [reflexivity |]. split; [reflexivity |]. split.
  - intros Hvalid key. rewrite names_of_valid_keys.
    + rewrite member_of_pairs. f_equal.
      rewrite (list_to_map_proper _ (map_to_list (Spec.display <$> logrus.Data entry))).
      * by rewrite list_to_map_to_list, lookup_fmap.
      * rewrite Hperm. apply NoDup_fst_map_to_list.
      * exact Hperm.
    + intros [k v] Hin. simpl. apply Hvalid.
      rewrite Hperm in Hin. apply elem_of_map_to_list in Hin.
      rewrite lookup_fmap in Hin. destruct (logrus.Data entry !! k); [by eexists | done].
  - intros Hempty. rewrite Hempty, fmap_empty.
    by rewrite map_to_list_empty.
Qed.

Lemma custom_fields_member_sample :
  (∀ key : string, is_Some (logrus.Data Sample.entry !! key) → json.utf8 key = key)
  ∧ ∃ fields : list (string * string),
      json.member "@custom_fields" (V0.marshal (createV0Message Sample.world_up Sample.entry))
        = Some (json.Object (map (λ kv, (json.utf8 (fst kv), json.Str (snd kv))) fields))
      ∧ json.member "number"
          (json.Object (map (λ kv, (json.utf8 (fst kv), json.Str (snd kv))) fields))
        = Some (json.Str "1").
Proof.
  assert (Hvalid : ∀ key : string,
             is_Some (logrus.Data Sample.entry !! key) → json.utf8 key = key).
  { intros key [v Hkey].
    destruct (decide (key = "animal")) as [-> | Hanimal]; [reflexivity |].
    destruct (decide (key = "number")) as [-> | Hnumber]; [reflexivity |].
    destruct (decide (key = "size")) as [-> | Hsize]; [reflexivity |].
    unfold Sample.entry in Hkey. cbn [logrus.Data] in Hkey.
    rewrite !lookup_insert_ne in Hkey by done. by rewrite lookup_singleton_ne in Hkey. }
  split; [exact Hvalid |].
  destruct (custom_fields_member Sample.world_up Sample.entry)
    as (fields & _ & _ & Hv0 & _ & Hlookup & _).
  exists fields. split; [exact Hv0 |]. exact (Hlookup Hvalid "number").
Defined.

(** A field whose name is the single byte [FF] travels under the name
    U+FFFD, with U+FFFD in place of the same byte in its value. *)
Example custom_fields_invalid_utf8 :
  json.member "@custom_fields"
    (V0.marshal
       (createV0Message Sample.world_up
          (logrus.MkEntry {[ String (ascii_of_N 255) "" := VString (String (ascii_of_N 255) "x") ]}
             (logrus.Time Sample.entry) logrus.InfoLevel "plain")))
  = Some (json.Object [ (json.replacement, json.Text (json.replacement +:+ "x")) ]).
Proof. vm_compute. reflexivity. Qed.

(** X16.  The source host of an envelope is what [os.Hostname] gives,
    and the literal ["unknown"] when that call fails; the failure does
    not make the formatting fail.  V0 carries it under [@source_host],
    V1 under [host]. *)
Theorem envelope_source_host (w : World) (entry : logrus.Entry) :
  ∃ v0 v1 : json.Value,
    json_Marshal (MsgV0 (createV0Message w entry)) = Ok v0
    ∧ json_Marshal (MsgV1 (createV1Message w entry)) = Ok v1
    ∧ json.member "@source_host" v0 = Some (json.Str (reportHostname w))
    ∧ json.member "host" v1 = Some (json.Str (reportHostname w))
    ∧ (∀ h : string, os_Hostname w = Ok h → reportHostname w = h)
    ∧ (∀ err : error, os_Hostname w = Err err → reportHostname w = "unknown").
Proof.
  rewrite createV0Message_fields, createV1Message_fields.
  eexists. eexists. split; [reflexivity |]. split; [reflexivity |].
  split; [reflexivity |]. split; [reflexivity |].
  unfold reportHostname. split; intros x Hx; by rewrite Hx.
Qed.

Lemma envelope_source_host_unknown :
  os_Hostname (MkWorld (net Sample.world_up) (Err "hostname: not set") []) = Err "hostname: not set"
  ∧ reportHostname (MkWorld (net Sample.world_up) (Err "hostname: not set") []) = "unknown".
Proof.
  split; [reflexivity |].
  destruct (envelope_source_host (MkWorld (net Sample.world_up) (Err "hostname: not set") [])
              Sample.entry) as (v0 & v1 & _ & _ & _ & _ & _ & Herr).
  exact (Herr "hostname: not set" eq_refl).
Defined.

(** ** Beyond the claims: what reaches the list *)

Section ListGrowth.

Implicit Types (hook : RedisHook) (w : World) (entry : logrus.Entry).

(** The payload depends on the world through the host name only. *)
Lemma payload_same_host hook entry w w' :
  os_Hostname w' = os_Hostname w → payload hook entry w' = payload hook entry w.
Proof.
  intros Hhost. unfold payload.
  rewrite !createV0Message_fields, !createV1Message_fields.
  unfold reportHostname. by rewrite Hhost.
Qed.

(** One [processEntry] against a server that answers. *)
Lemma processEntry_pushes hook entry w :
  push_err hook entry w = None →
  hook_list hook (fst (processEntry hook entry w)) = hook_list hook w ++ [payload hook entry w]
  ∧ redis.reply_err (net (fst (processEntry hook entry w))) = redis.reply_err (net w)
  ∧ os_Hostname (fst (processEntry hook entry w)) = os_Hostname w.
Proof.
  intros Hpush. rewrite processEntry_deliver.
  unfold Spec.deliver, redis.Do, redis.Get. cbn [redis.conn_address].
  unfold push_err, push_command in Hpush. rewrite Hpush. simpl.
  unfold hook_list. simpl. by rewrite lookup_insert_eq.
Qed.

(** Entries processed one after the other against a server that
    answers every command are appended in that order. *)
Lemma processEntry_each_pushes hook (entries : list logrus.Entry) w :
  (∀ cmd, redis.reply_err (net w) (redis.Dial_address (RedisPool hook)) cmd = None) →
  hook_list hook (processEntry_each hook entries w)
    = hook_list hook w ++ map (λ entry, payload hook entry w) entries.
Proof.
  revert w. induction entries as [| entry rest IH]; intros w Hup.
  - simpl. by rewrite app_nil_r.
  - destruct (processEntry_pushes hook entry w (Hup _)) as (Hlist & Hreply & Hhost).
    change (processEntry_each hook (entry :: rest) w)
      with (processEntry_each hook rest (fst (processEntry hook entry w))).
    rewrite IH.
    + rewrite Hlist, <- app_assoc. simpl. f_equal. f_equal.
      apply map_ext. intros e. by apply payload_same_host.
    + intros cmd. rewrite Hreply. apply Hup.
Qed.

End ListGrowth.

(** X17.  With a server that answers every command, entries fired at
    an async hook whose empty queue has room for them all end up on the
    list under the hook's key, after as many worker turns as there are
    entries, as their payloads in the order they were fired, behind
    what the list held before. *)
Theorem async_list_in_order
    (hook : RedisHook) (ch : golang.Chan logrus.Entry) (entries : list logrus.Entry)
    (w : World) :
  Async hook = true → EntryQueue hook = Some ch → Queue.bounded ch →
  Queue.pending ch = [] → (List.length entries ≤ Queue.room ch)%nat →
  (∀ cmd, redis.reply_err (net w) (redis.Dial_address (RedisPool hook)) cmd = None) →
  hook_list hook
    (snd (asyncProcessing_turns (List.length entries)
            (fst (Fire_each hook entries w)) (snd (Fire_each hook entries w))))
    = hook_list hook w ++ map (λ entry, payload hook entry w) entries.
Proof.
  intros Hasync Hqueue Hbounded Hpending Hroom Hup.
  destruct (Fire_each_all_taken hook ch entries w Hasync Hqueue Hbounded Hroom)
    as (ch1 & Hfire & Hpending1 & Hbounded1).
  rewrite Hpending in Hpending1. simpl in Hpending1. rewrite Hfire. simpl.
  destruct (asyncProcessing_turns_oldest (List.length entries)
              (set_EntryQueue hook (Some ch1)) ch1 w eq_refl Hbounded1)
    as (ch2 & Hturns & _).
  rewrite Hturns, Hpending1, firstn_all. simpl.
  exact (processEntry_each_pushes hook entries w Hup).
Qed.

Lemma async_list_in_order_sample :
  hook_list (Sample.hook "v0" logrus.DebugLevel true (Some (golang.MkChan 2 [] golang.Away)))
    (snd (asyncProcessing_turns 2
            (fst (Fire_each
                    (Sample.hook "v0" logrus.DebugLevel true
                       (Some (golang.MkChan 2 [] golang.Away)))
                    [Sample.entry; Sample.entry] Sample.world_up))
            (snd (Fire_each
                    (Sample.hook "v0" logrus.DebugLevel true
                       (Some (golang.MkChan 2 [] golang.Away)))
                    [Sample.entry; Sample.entry] Sample.world_up))))
  = [ V0.marshal (createV0Message Sample.world_up Sample.entry);
      V0.marshal (createV0Message Sample.world_up Sample.entry) ].
Proof.
  assert (Hbounded : Queue.bounded (golang.MkChan 2 [] golang.Away : golang.Chan logrus.Entry)).
  { split; [simpl; lia | discriminate]. }
  assert (Hroom : (List.length [Sample.entry; Sample.entry]
                  ≤ Queue.room (golang.MkChan 2 [] golang.Away : golang.Chan logrus.Entry))%nat).
  { unfold Queue.room. simpl. lia. }
  exact (async_list_in_order
           (Sample.hook "v0" logrus.DebugLevel true (Some (golang.MkChan 2 [] golang.Away)))
           (golang.MkChan 2 [] golang.Away) [Sample.entry; Sample.entry] Sample.world_up
           eq_refl eq_refl Hbounded eq_refl Hroom (λ _, eq_refl)).
Defined.

(** The walk of the encoder over a few strings: ASCII and a
    well-formed two-byte sequence are kept, U+FFFD stays U+FFFD, a
    stray byte [FF] and each byte of the surrogate [ED A0 80] give way
    to U+FFFD. *)
Example utf8_samples :
  json.utf8 "walrus" = "walrus"
  ∧ json.utf8 (String (ascii_of_N 195) (String (ascii_of_N 169) ""))
    = String (ascii_of_N 195) (String (ascii_of_N 169) "")
  ∧ json.utf8 json.replacement = json.replacement
  ∧ json.utf8 (String (ascii_of_N 255) "x") = json.replacement +:+ "x"
  ∧ json.utf8 (String (ascii_of_N 237) (String (ascii_of_N 160) (String (ascii_of_N 128) "")))
    = json.replacement +:+ json.replacement +:+ json.replacement.
Proof. repeat split; reflexivity. Qed.
